(** * The product optimizer of [index.js]

    A shallow embedding of the field parsers, the aggregate reducers and
    the cascading optimizer of [src/index.js], and the properties of the
    specification that are stated about them.

    Conventions of the embedding:
    - a JavaScript number is a [number]: [NaN], the two infinities, or a
      finite value, kept as the rational it stands for (the two zeros are
      one).  Every double is one of these, and [<], [>] and [===] on
      doubles are the comparisons of the values, so what is proved for
      every [number] holds for every double.  What [parseFloat] and
      [parseInt] read is rounded to the nearest double, a tie to the even
      one, as the engine does ([Double.round]);
    - [number | null] is [option number], [null] being [None];
    - an array is a [list]; [filter], [map] and [reduce] are [filter],
      [fmap] and [foldl]; an object used as a table is a [gmap];
    - a string is a [string] of 8-bit code units;
    - a product element is the record of the texts that the selectors of
      the program find in it;
    - the current year and [new Date(text)], which the engine and its
      clock decide, are the variables of the section [Engine]. *)

From Stdlib Require Import QArith Ascii.
From stdpp Require Import base option list strings pretty gmap.

Local Open Scope Z_scope.
Local Open Scope stdpp_scope.

(** ** Numbers *)

Inductive number : Type :=
  | NaN
  | NegInfinity
  | Finite (q : Q)
  | Infinity.

Module Number.

(** The outcome of comparing two numbers; [None] when one is [NaN]. *)
Definition compare (a b : number) : option comparison :=
  match a, b with
  | NaN, _ | _, NaN => None
  | NegInfinity, NegInfinity => Some Eq
  | NegInfinity, _ => Some Lt
  | _, NegInfinity => Some Gt
  | Infinity, Infinity => Some Eq
  | Infinity, _ => Some Gt
  | _, Infinity => Some Lt
  | Finite p, Finite q => Some (p ?= q)%Q
  end.

(** [a < b] *)
Definition lt (a b : number) : bool :=
  match compare a b with Some Lt => true | _ => false end.

(** [a > b] *)
Definition gt (a b : number) : bool := lt b a.

(** [a === b] *)
Definition strict_eq (a b : number) : bool :=
  match compare a b with Some Eq => true | _ => false end.

(** [isNaN(a)] *)
Definition isNaN (a : number) : bool :=
  match a with NaN => true | _ => false end.

Definition isZero (a : number) : bool :=
  match a with Finite q => Qeq_bool q 0 | _ => false end.

(** [ToBoolean]: [NaN], [+0] and [-0] are falsy. *)
Definition ToBoolean (a : number) : bool := negb (isNaN a || isZero a).

(** [a <= b] for the order of the values; not JavaScript's [<=] on [NaN]. *)
Definition le (a b : number) : Prop := lt b a = false.

Definition of_Z (z : Z) : number := Finite (inject_Z z).

End Number.

(** ** Doubles *)

Module Double.

(** The exponent of [n/d], both positive: the [e] with
    [2^e <= n/d < 2^(e+1)]. *)
Definition exponentOf (n d : Z) : Z :=
  let e := Z.log2 n - Z.log2 d in
  if (if 0 <=? e then d * 2 ^ e <=? n else d <=? n * 2 ^ (- e)) then e else e - 1.

(** The integer nearest to [n/d], the even one of the two at a tie. *)
Definition nearestEven (n d : Z) : Z :=
  let f := n / d in
  match 2 * (n mod d) ?= d with
  | Lt => f
  | Gt => f + 1
  | Eq => if Z.even f then f else f + 1
  end.

(** [m * 2^e], in lowest terms. *)
Definition scale (m e : Z) : Q :=
  if 0 <=? e then inject_Z (m * 2 ^ e) else Qred (Qmake m (Z.to_pos (2 ^ (- e)))).

(** The double nearest to [n/d], both positive: 53 bits from the exponent
    of [n/d] down, no bit below [2^-1074] (the subnormal numbers), and
    [Infinity] from [2^1024] on. *)
Definition nearest (n d : Z) : number :=
  let e := Z.max (exponentOf n d) (-1022) - 52 in
  let m := if 0 <=? e then nearestEven n (d * 2 ^ e) else nearestEven (n * 2 ^ (- e)) d in
  if (0 <=? e) && (2 ^ 1024 <=? m * 2 ^ e) then Infinity else Finite (scale m e).

Definition opp (a : number) : number :=
  match a with
  | NaN => NaN
  | NegInfinity => Infinity
  | Finite q => Finite (- q)
  | Infinity => NegInfinity
  end.

(** The Number value for [q]: the double nearest to it, a tie to the one
    with an even significand. *)
Definition round (q : Q) : number :=
  match Qnum q with
  | 0 => Finite 0
  | Z.pos n => nearest (Z.pos n) (Z.pos (Qden q))
  | Z.neg n => opp (nearest (Z.pos n) (Z.pos (Qden q)))
  end.

End Double.

(** ** Values of type [number | null] and [Date | null] *)

Module Value.

(** [ToBoolean] of a [number | null]. *)
Definition ToBoolean (v : option number) : bool :=
  match v with None => false | Some n => Number.ToBoolean n end.

(** [ToNumber]: [null] converts to [+0]. *)
Definition ToNumber (v : option number) : number :=
  match v with None => Finite 0 | Some n => n end.

Definition lt (a b : option number) : bool := Number.lt (ToNumber a) (ToNumber b).
Definition gt (a b : option number) : bool := Number.gt (ToNumber a) (ToNumber b).

(** [a === b]: no conversion, [null] equals only [null]. *)
Definition strict_eq (a b : option number) : bool :=
  match a, b with
  | None, None => true
  | Some x, Some y => Number.strict_eq x y
  | _, _ => false
  end.

End Value.

(** A [Date] object, as far as the program looks at it: its time value,
    [NaN] for an invalid date. *)
Record Date : Type := mkDate { getTime : number }.

Module DateValue.

(** A [Date] object is truthy, whatever its time value. *)
Definition ToBoolean (v : option Date) : bool :=
  match v with None => false | Some _ => true end.

(** The relational operators convert a [Date] with [valueOf]. *)
Definition ToNumber (v : option Date) : number :=
  match v with None => Finite 0 | Some d => getTime d end.

Definition gt (a b : option Date) : bool := Number.gt (ToNumber a) (ToNumber b).

End DateValue.

(** ** Products *)

Record Product : Type := mkProduct {
  url : option string;
  price : option number;
  deliveryDate : option Date;
  rating : option number;
  ratingCount : option number
}.

(** ** Aggregate reducers *)

Definition getEarliestDeliveryDateOfProducts (productDetails : list Product) : option Date :=
  let deliveryDates :=
    deliveryDate <$> filter (λ p, DateValue.ToBoolean (deliveryDate p)) productDetails in
  match deliveryDates with
  | [] => None
  | first :: _ =>
      foldl (λ earliestDate date,
               if DateValue.gt earliestDate date then date else earliestDate)
            first deliveryDates
  end.

Definition getFastestDeliveredProducts (productDetails : list Product) : list Product :=
  match getEarliestDeliveryDateOfProducts productDetails with
  | None => []
  | Some earliestDate =>
      filter (λ p : Product,
                (match deliveryDate p with
                 | Some d => Number.strict_eq (getTime d) (getTime earliestDate)
                 | None => false (* not reached: the filter before keeps dates only *)
                 end : bool))
             (filter (λ p, DateValue.ToBoolean (deliveryDate p)) productDetails)
  end.

Definition getLowestPriceOfProducts (productDetails : list Product) : option number :=
  let prices := price <$> filter (λ p, Value.ToBoolean (price p)) productDetails in
  match prices with
  | [] => None
  | first :: _ =>
      foldl (λ lowestPrice price,
               if Value.gt lowestPrice price then price else lowestPrice)
            first prices
  end.

Definition getProductsOfLowestPrice (productDetails : list Product) : list Product :=
  let lowestPrice := getLowestPriceOfProducts productDetails in
  filter (λ p, Value.ToBoolean (price p) && Value.strict_eq (price p) lowestPrice)
         productDetails.

Definition getHighestRatingOfProducts (productDetails : list Product) : option number :=
  let ratings := rating <$> filter (λ p, Value.ToBoolean (rating p)) productDetails in
  match ratings with
  | [] => None
  | first :: _ =>
      foldl (λ highestRating rating,
               if Value.lt highestRating rating then rating else highestRating)
            first ratings
  end.

Definition getProductsOfHighestRating (productDetails : list Product) : list Product :=
  let highestRating := getHighestRatingOfProducts productDetails in
  if negb (Value.ToBoolean highestRating) then []
  else
    filter (λ p, Value.ToBoolean (rating p) && Value.strict_eq (rating p) highestRating)
           productDetails.

(** ** Cascading optimizer *)

Definition Optimizations : gmap string (list Product → list Product) :=
  <["PRICE" := getProductsOfLowestPrice]>
    (<["DELIVERY_DATE" := getFastestDeliveredProducts]>
       {["RATING" := getProductsOfHighestRating]}).

(** [Object.keys(o)]: the object's own keys. *)
Definition keys {V} (o : gmap string V) : list string := (map_to_list o).*1.

(** [array.includes(x)] on an array of strings. *)
Definition includes (array : list string) (x : string) : bool := bool_decide (x ∈ array).

(** What [getProductOptimizedFor] returns: [null], [undefined] (the first
    element of an empty array) or a product. *)
Inductive optimized : Type :=
  | null
  | undefined
  | product (p : Product).

(** [array[0]] *)
Definition first (array : list Product) : optimized :=
  match array !! 0%nat with
  | None => undefined
  | Some p => product p
  end.

(** The [for] loop over [optimizationTypes], from index [i] on, with the
    candidates so far; [None] when the loop leaves the function with
    [return null]. *)
Fixpoint cascade (optimizedProducts : list Product) (optimizationTypes : list string)
  : option (list Product) :=
  match optimizationTypes with
  | [] => Some optimizedProducts
  | type :: rest =>
      if negb (includes (keys Optimizations) type) then None
      else
        match Optimizations !! type with
        | None => None (* not reached: [type] is one of the keys *)
        | Some optimization =>
            let tempOptimizedProducts := optimization optimizedProducts in
            if (length tempOptimizedProducts =? 0)%nat
            then cascade optimizedProducts rest
            else cascade tempOptimizedProducts rest
        end
  end.

(** The statements after the loop. *)
Definition tieBreak (optimizedProducts : list Product) : list Product :=
  if (1 <? length optimizedProducts)%nat then
    let tempOptimizedProducts := getProductsOfHighestRating optimizedProducts in
    if negb (length tempOptimizedProducts =? 0)%nat then tempOptimizedProducts
    else optimizedProducts
  else optimizedProducts.

Definition getProductOptimizedFor (productDetails : list Product)
    (optimizationTypes : list string) : optimized :=
  match cascade productDetails optimizationTypes with
  | None => null
  | Some optimizedProducts => first (tieBreak optimizedProducts)
  end.

(** ** Strings *)

Module Char.

(** [lo <= c <= hi] on the code units. *)
Definition between (lo hi c : ascii) : bool := Ascii.leb lo c && Ascii.leb c hi.

Definition isUpper : ascii → bool := between "A" "Z".
Definition isLower : ascii → bool := between "a" "z".
Definition isDigit : ascii → bool := between "0" "9".

(** White space and line terminators, among the code units below 256:
    TAB, LF, VT, FF, CR, SP and NBSP. *)
Definition isWhiteSpace (c : ascii) : bool :=
  match N_of_ascii c with
  | 9 | 10 | 11 | 12 | 13 | 32 | 160 => true
  | _ => false
  end%N.

(** The value of a decimal digit. *)
Definition digitValue (c : ascii) : Z := Z.of_N (N_of_ascii c) - 48.

(** The value of a digit in base 16, when it is one. *)
Definition hexValue (c : ascii) : option Z :=
  if isDigit c then Some (digitValue c)
  else if between "a" "f" c then Some (Z.of_N (N_of_ascii c) - 87)
  else if between "A" "F" c then Some (Z.of_N (N_of_ascii c) - 55)
  else None.

End Char.

Module Str.

(** The string is not empty: a string is truthy exactly then. *)
Definition ToBoolean (s : string) : bool :=
  match s with EmptyString => false | String _ _ => true end.

Fixpoint startsWith (p s : string) : bool :=
  match p, s with
  | EmptyString, _ => true
  | String _ _, EmptyString => false
  | String a p', String b s' => Ascii.eqb a b && startsWith p' s'
  end.

Fixpoint trimStart (s : string) : string :=
  match s with
  | EmptyString => EmptyString
  | String c s' => if Char.isWhiteSpace c then trimStart s' else s
  end.

Fixpoint trimEnd (s : string) : string :=
  match s with
  | EmptyString => EmptyString
  | String c s' =>
      match trimEnd s' with
      | EmptyString => if Char.isWhiteSpace c then EmptyString else String c EmptyString
      | rest => String c rest
      end
  end.

(** Every character of the string satisfies [f]. *)
Fixpoint all (f : ascii → bool) (s : string) : bool :=
  match s with
  | EmptyString => true
  | String c s' => f c && all f s'
  end.

(** A string of decimal digits. *)
Definition allDigits (s : string) : Prop := all Char.isDigit s = true.

(** The character [c] does not occur in the string. *)
Definition free (c : ascii) (s : string) : Prop :=
  all (λ a, negb (Ascii.eqb c a)) s = true.

(** [s.trim()] *)
Definition trim (s : string) : string := trimEnd (trimStart s).

(** [s.split(separator)] for a separator that is not empty.  [skip] counts
    the characters of a separator found that are still to pass. *)
Fixpoint splitFrom (separator : string) (skip : nat) (s : string) : list string :=
  match s with
  | EmptyString => [EmptyString]
  | String c s' =>
      match skip with
      | S n => splitFrom separator n s'
      | O =>
          if startsWith separator s
          then EmptyString :: splitFrom separator (String.length separator - 1)%nat s'
          else
            match splitFrom separator 0 s' with
            | part :: parts => String c part :: parts
            | [] => [String c EmptyString]
            end
      end
  end.

Definition split (separator s : string) : list string := splitFrom separator 0 s.

(** [s.replace(/c/g, '')] for a single character [c]. *)
Fixpoint remove (c : ascii) (s : string) : string :=
  match s with
  | EmptyString => EmptyString
  | String a s' => if Ascii.eqb a c then remove c s' else String a (remove c s')
  end.

(** The longest prefix of decimal digits, and what follows it. *)
Fixpoint spanDigits (s : string) : string * string :=
  match s with
  | EmptyString => (EmptyString, EmptyString)
  | String c s' =>
      if Char.isDigit c
      then let (digits, rest) := spanDigits s' in (String c digits, rest)
      else (EmptyString, s)
  end.

(** The number written by a string of decimal digits, most significant
    first, continuing from [acc]. *)
Fixpoint digitsValue (acc : Z) (digits : string) : Z :=
  match digits with
  | EmptyString => acc
  | String c rest => digitsValue (10 * acc + Char.digitValue c) rest
  end.

(** An optional sign: whether it is [-], and what follows it. *)
Definition sign (s : string) : bool * string :=
  match s with
  | String "-" s' => (true, s')
  | String "+" s' => (false, s')
  | _ => (false, s)
  end.

End Str.

(** ** [parseFloat] and [parseInt] *)

(** The Number value for [mantissa * 10 ^ exponent]: the double nearest
    to it.  (The language lets an engine take the digits after the
    twentieth significant one as zeros; the embedding takes them as they
    are, as the engines do.) *)
Definition decimal (negative : bool) (mantissa exponent : Z) : number :=
  let m := if negative then (- mantissa)%Z else mantissa in
  Double.round
    match exponent with
    | Z.neg e => Qmake m (10 ^ e)
    | _ => inject_Z (m * 10 ^ exponent)
    end.

(** The exponent part [e], [e+] or [e-] with digits; 0 when what follows
    is not an exponent part. *)
Definition exponentPart (s : string) : Z :=
  match s with
  | String c s' =>
      if Ascii.eqb c "e" || Ascii.eqb c "E" then
        let (negative, afterSign) := Str.sign s' in
        let (digits, _) := Str.spanDigits afterSign in
        match digits with
        | EmptyString => 0
        | _ => if negative then - Str.digitsValue 0 digits else Str.digitsValue 0 digits
        end
      else 0
  | EmptyString => 0
  end%Z.

(** [parseFloat(inputString)]: the value of the longest prefix of the
    string, white space at its start passed over, that is a decimal
    literal; [NaN] when there is none. *)
Definition parseFloat (inputString : string) : number :=
  let trimmedString := Str.trimStart inputString in
  let (negative, unsigned) := Str.sign trimmedString in
  if Str.startsWith "Infinity" unsigned then
    if negative then NegInfinity else Infinity
  else
    let (integerDigits, afterInteger) := Str.spanDigits unsigned in
    let (fractionDigits, afterFraction) :=
      match afterInteger with
      | String "." s' => Str.spanDigits s'
      | _ => (EmptyString, afterInteger)
      end in
    match integerDigits +:+ fractionDigits with
    | EmptyString => NaN
    | digits =>
        decimal negative (Str.digitsValue 0 digits)
                (exponentPart afterFraction - Z.of_nat (String.length fractionDigits))
    end.

(** The value of the longest prefix of digits in base [radix], continuing
    from [acc]; [None] when there is no digit and nothing was read. *)
Fixpoint radixValue (radix : Z) (acc : option Z) (s : string) : option Z :=
  match s with
  | EmptyString => acc
  | String c s' =>
      match Char.hexValue c with
      | Some d =>
          if (d <? radix)%Z
          then radixValue radix (Some (radix * default 0%Z acc + d)%Z) s'
          else acc
      | None => acc
      end
  end.

(** [parseInt(inputString)], no radix given: base 16 after [0x] or [0X],
    base 10 otherwise. *)
Definition parseInt (inputString : string) : number :=
  let trimmedString := Str.trimStart inputString in
  let (negative, unsigned) := Str.sign trimmedString in
  let value :=
    match unsigned with
    | String "0" (String "x" s') | String "0" (String "X" s') => radixValue 16 None s'
    | _ => radixValue 10 None unsigned
    end in
  match value with
  | None => NaN
  | Some n => Double.round (inject_Z (if negative then - n else n))
  end.

(** ** Regular expressions *)

(** The patterns of the program are made of characters, character
    ranges, sequences and alternatives. *)
Inductive regex : Type :=
  | Empty
  | Chr (c : ascii)
  | Range (lo hi : ascii)
  | Seq (r1 r2 : regex)
  | Alt (r1 r2 : regex).

Module RegExp.

(** [r?] *)
Definition Opt (r : regex) : regex := Alt r Empty.

(** [r{n}] *)
Fixpoint Times (n : nat) (r : regex) : regex :=
  match n with
  | O => Empty
  | S n' => Seq r (Times n' r)
  end.

(** The characters of [s], one after the other. *)
Fixpoint Lit (s : string) : regex :=
  match s with
  | EmptyString => Empty
  | String c s' => Seq (Chr c) (Lit s')
  end.

(** [\d] *)
Definition Digit : regex := Range "0" "9".

(** Matching by backtracking: [r] matches a prefix of [s] and [k] accepts
    what is left. *)
Fixpoint matchFrom (r : regex) (s : string) (k : string → bool) : bool :=
  match r with
  | Empty => k s
  | Chr c =>
      match s with
      | String a s' => Ascii.eqb a c && k s'
      | EmptyString => false
      end
  | Range lo hi =>
      match s with
      | String a s' => Char.between lo hi a && k s'
      | EmptyString => false
      end
  | Seq r1 r2 => matchFrom r1 s (λ rest, matchFrom r2 rest k)
  | Alt r1 r2 => matchFrom r1 s k || matchFrom r2 s k
  end.

(** [/^r$/.test(s)] *)
Definition test (r : regex) (s : string) : bool :=
  matchFrom r s (λ rest, negb (Str.ToBoolean rest)).

End RegExp.

(** What a pattern matches. *)
Fixpoint lang (r : regex) (s : string) : Prop :=
  match r with
  | Empty => s = EmptyString
  | Chr c => s = String c EmptyString
  | Range lo hi => ∃ c, s = String c EmptyString ∧ Char.between lo hi c = true
  | Seq r1 r2 => ∃ s1 s2, s = s1 +:+ s2 ∧ lang r1 s1 ∧ lang r2 s2
  | Alt r1 r2 => lang r1 s ∨ lang r2 s
  end.

(** ** Field parsers *)

Module DeliveryDate.

(** [[A-Z][a-z]{2}, [A-Z][a-z]{2} \d{1,2}] *)
Definition datePart : regex :=
  Seq (Range "A" "Z") (Seq (RegExp.Times 2 (Range "a" "z")) (Seq (RegExp.Lit ", ")
  (Seq (Range "A" "Z") (Seq (RegExp.Times 2 (Range "a" "z")) (Seq (RegExp.Lit " ")
  (Seq RegExp.Digit (RegExp.Opt RegExp.Digit))))))).

(** [/^[A-Z][a-z]{2}, [A-Z][a-z]{2} \d{1,2}( - [A-Z][a-z]{2}, [A-Z][a-z]{2} \d{1,2})?$/] *)
Definition basicPattern : regex :=
  Seq datePart (RegExp.Opt (Seq (RegExp.Lit " - ") datePart)).

(** The texts of the pattern, by their parts: an abbreviation is a
    capital and two small letters, a day one or two digits. *)
Definition isAbbreviation (w : string) : bool :=
  match w with
  | String c1 (String c2 (String c3 EmptyString)) =>
      Char.isUpper c1 && Char.isLower c2 && Char.isLower c3
  | _ => false
  end.

Definition isDay (d : string) : bool :=
  match d with
  | String c1 EmptyString => Char.isDigit c1
  | String c1 (String c2 EmptyString) => Char.isDigit c1 && Char.isDigit c2
  | _ => false
  end.

(** [Weekday, Month Day] *)
Definition dateText (weekday month day : string) : string :=
  weekday +:+ ", " +:+ month +:+ " " +:+ day.

Definition isDate (weekday month day : string) : Prop :=
  isAbbreviation weekday = true ∧ isAbbreviation month = true ∧ isDay day = true.

(** Nothing, or [ - Weekday, Month Day]. *)
Definition isRangeEnd (range : string) : Prop :=
  range = EmptyString ∨
  ∃ weekday month day, isDate weekday month day ∧ range = " - " +:+ dateText weekday month day.

End DeliveryDate.

Module Rating.

(** [/^(\d\.\d|\d) out of 5 stars$/g]; the pattern is made anew at every
    call, so that the search starts at the first character. *)
Definition basicPattern : regex :=
  Seq (Alt (Seq RegExp.Digit (Seq (Chr ".") RegExp.Digit)) RegExp.Digit)
      (RegExp.Lit " out of 5 stars").

End Rating.

(** A product element of the page, as far as the program reads it: the
    attribute [data-asin]; the [innerText] of the first element found for
    each of the selectors [.a-price-whole], [.a-price-fraction],
    [span.a-icon-alt] and [span.a-size-base.s-underline-text], [None] when
    there is no such element; and the [innerText] of every element found
    for the selector of the delivery dates. *)
Record Element : Type := mkElement {
  dataAsin : option string;
  priceWhole : option string;
  priceFraction : option string;
  iconAlt : option string;
  underlineText : option string;
  deliveryTexts : list string
}.

(** The document, as far as the program reads it: its elements, in the
    order of the document.  The selector keeps the elements that have the
    attribute [data-asin] with a value that is not empty. *)
Definition getProductElementsFromPage (document : list Element) : list Element :=
  filter (λ element : Element,
            (match dataAsin element with
             | Some productId => Str.ToBoolean productId
             | None => false
             end : bool))
         document.

Record OptimizationTypesRecord : Type := mkOptimizationTypes {
  PRICE : string;
  DELIVERY_DATE : string;
  RATING : string
}.

Definition OptimizationTypes : OptimizationTypesRecord :=
  {| PRICE := "PRICE"; DELIVERY_DATE := "DELIVERY_DATE"; RATING := "RATING" |}.

(** What [main] returns; a property is [None] when it is [undefined] and
    [Some None] when it is [null]. *)
Record OptimalProductUrls : Type := mkOptimalProductUrls {
  fastestDelivery : option (option string);
  cheapest : option (option string);
  highestRating : option (option string)
}.

(** [optimizedProduct?.url] *)
Definition urlOf (optimizedProduct : optimized) : option (option string) :=
  match optimizedProduct with
  | product p => Some (url p)
  | null | undefined => None
  end.

Section Engine.

(** The year of [new Date()]. *)
Variable fullYear : Z.

(** [new Date(text)] *)
Variable newDate : string → Date.

Definition parseDeliveryDateString (dateString : string) : option Date :=
  let trimmedDateString := Str.trim dateString in
  if negb (RegExp.test DeliveryDate.basicPattern trimmedDateString) then None
  else
    let dateParts := Str.split ", " trimmedDateString in
    match dateParts !! 1%nat with
    | None => None (* not reached: the pattern has a comma *)
    | Some part =>
        let monthAndDay := Str.split " " part in
        let month := default "undefined" (monthAndDay !! 0%nat) in
        let day := default "undefined" (monthAndDay !! 1%nat) in
        let year := pretty fullYear in
        let date := newDate (month +:+ " " +:+ day +:+ ", " +:+ year) in
        if Number.isNaN (getTime date) then None else Some date
    end.

Definition getDeliveryDateFromElement (productElement : Element) : option Date :=
  let deliveryDates :=
    omap parseDeliveryDateString
         (filter (λ d, Str.ToBoolean d) (deliveryTexts productElement)) in
  match deliveryDates with
  | [] => None
  | first :: rest =>
      Some (foldl (λ earliestDate date,
                     if Number.lt (getTime earliestDate) (getTime date)
                     then earliestDate else date)
                  first rest)
  end.

Definition getPriceFromElement (productElement : Element) : option number :=
  let totalPriceAsString :=
    match priceWhole productElement, priceFraction productElement with
    | Some whole, Some fraction => Some (whole +:+ fraction)
    | _, _ => None
    end in
  match totalPriceAsString with
  | Some text => if Str.ToBoolean text then Some (parseFloat text) else None
  | None => None
  end.

Definition getProductUrlFromElement (productElement : Element) : option string :=
  match dataAsin productElement with
  | Some productId =>
      if Str.ToBoolean productId then Some ("https://www.amazon.com/dp/" +:+ productId)
      else None
  | None => None
  end.

Definition getRatingFromElement (productElement : Element) : option number :=
  match iconAlt productElement with
  | None => None
  | Some ratingString =>
      if negb (Str.ToBoolean ratingString) then None
      else
        if negb (RegExp.test Rating.basicPattern ratingString) then None
        else
          match Str.split " " ratingString with
          | [] => None
          | first :: _ =>
              let rating := parseFloat first in
              if Number.isNaN rating then None else Some rating
          end
  end.

Definition getRatingCountFromElement (productElement : Element) : option number :=
  match underlineText productElement with
  | None => None
  | Some ratingCountString =>
      if negb (Str.ToBoolean ratingCountString) then None
      else
        let normalizedRatingCountString := Str.remove "," ratingCountString in
        let ratingCount := parseInt normalizedRatingCountString in
        if Number.isNaN ratingCount then None else Some ratingCount
  end.

Definition getProductDetailsFromElements (productElements : list Element) : list Product :=
  (λ element,
     {| url := getProductUrlFromElement element;
        price := getPriceFromElement element;
        deliveryDate := getDeliveryDateFromElement element;
        rating := getRatingFromElement element;
        ratingCount := getRatingCountFromElement element |}) <$> productElements.

(** [main], run on a document. *)
Definition main (document : list Element) : OptimalProductUrls :=
  let productElements := getProductElementsFromPage document in
  let products := getProductDetailsFromElements productElements in
  let productsOptimizedForDelivery :=
    getProductOptimizedFor products
      [DELIVERY_DATE OptimizationTypes; PRICE OptimizationTypes; RATING OptimizationTypes] in
  let productsOptimizedForPrice :=
    getProductOptimizedFor products
      [PRICE OptimizationTypes; RATING OptimizationTypes; DELIVERY_DATE OptimizationTypes] in
  let productsOptimizedForRating :=
    getProductOptimizedFor products
      [RATING OptimizationTypes; PRICE OptimizationTypes; DELIVERY_DATE OptimizationTypes] in
  {| fastestDelivery := urlOf productsOptimizedForDelivery;
     cheapest := urlOf productsOptimizedForPrice;
     highestRating := urlOf productsOptimizedForRating |}.

End Engine.

(** ** An engine for the examples

    How [new Date(text)] reads a text that is not in the ISO format is
    left to the engine.  The examples run with the following reading of
    [Month Day, Year], in the time zone UTC: the month by its
    abbreviation, the day from 1 to 31 when [lenient], as the engines do
    that carry a day past the end of the month over into the next one,
    and from 1 to the length of the month otherwise. *)
Module SampleEngine.

Definition months : list string :=
  ["Jan"; "Feb"; "Mar"; "Apr"; "May"; "Jun"; "Jul"; "Aug"; "Sep"; "Oct"; "Nov"; "Dec"].

Fixpoint monthIndex (names : list string) (name : string) : option nat :=
  match names with
  | [] => None
  | n :: rest => if String.eqb n name then Some 0%nat else S <$> monthIndex rest name
  end.

Definition isLeapYear (y : Z) : bool :=
  (y mod 4 =? 0) && (negb (y mod 100 =? 0) || (y mod 400 =? 0)).

Definition daysInMonth (y : Z) (m : nat) : Z :=
  match m with
  | 1%nat => if isLeapYear y then 29 else 28
  | 3%nat | 5%nat | 8%nat | 10%nat => 30
  | _ => 31
  end.

(** The day number of the first day of the year [y], counted from 1970. *)
Definition DayFromYear (y : Z) : Z :=
  365 * (y - 1970) + (y - 1969) / 4 - (y - 1901) / 100 + (y - 1601) / 400.

Fixpoint daysBefore (y : Z) (m : nat) : Z :=
  match m with
  | O => 0
  | S m' => daysBefore y m' + daysInMonth y m'
  end.

Definition MakeDay (y : Z) (m : nat) (d : Z) : Z := DayFromYear y + daysBefore y m + d - 1.

Definition msPerDay : Z := 86400000.

Definition newDate (lenient : bool) (text : string) : Date :=
  match Str.split " " text with
  | [month; day; year] =>
      let (dayDigits, afterDay) := Str.spanDigits day in
      match monthIndex months month with
      | Some m =>
          let y := Str.digitsValue 0 year in
          let d := Str.digitsValue 0 dayDigits in
          if Str.ToBoolean dayDigits && String.eqb afterDay ","
             && Str.ToBoolean year && Str.all Char.isDigit year
             && (1 <=? d) && (d <=? if lenient then 31 else daysInMonth y m)
          then mkDate (Number.of_Z (MakeDay y m d * msPerDay))
          else mkDate NaN
      | None => mkDate NaN
      end
  | _ => mkDate NaN
  end.

End SampleEngine.

(** * The vocabulary of the properties *)

(** [replace acc x] says that a reducer drops the accumulator [acc] for
    the element [x]; [pick replace] is the function it reduces with. *)
Definition pick {A : Type} (replace : A → A → bool) (acc x : A) : A :=
  if replace acc x then x else acc.

(** What the reducers of a number field compute: the field of the
    listings where it is truthy, reduced from the first with [replace]. *)
Definition extremumOf (field : Product → option number)
    (replace : option number → option number → bool)
    (productDetails : list Product) : option number :=
  match filter (λ p, Value.ToBoolean (field p)) productDetails with
  | [] => None
  | q :: kept => foldl (pick replace) (field q) (field <$> (q :: kept))
  end.

(** The listings whose field is truthy and strictly equal to the
    extremum of the field. *)
Definition atExtremum (field : Product → option number)
    (replace : option number → option number → bool)
    (productDetails : list Product) : list Product :=
  filter (λ p, Value.ToBoolean (field p) &&
               Value.strict_eq (field p) (extremumOf field replace productDetails))
         productDetails.

(** The listing has a delivery date, at the time of [date]. *)
Definition deliveredAt (date : Date) (p : Product) : bool :=
  match deliveryDate p with
  | Some d => Number.strict_eq (getTime d) (getTime date)
  | None => false
  end.

(** Every delivery date of the listings is a valid date. *)
Definition validDates (productDetails : list Product) : Prop :=
  ∀ p d, p ∈ productDetails → deliveryDate p = Some d → Number.isNaN (getTime d) = false.

(** [u] is the address made of the [data-asin] of a product element of
    the document. *)
Definition pageUrl (document : list Element) (u : option (option string)) : Prop :=
  ∃ element productId,
    element ∈ document ∧
    dataAsin element = Some productId ∧
    productId ≠ EmptyString ∧
    u = Some (Some ("https://www.amazon.com/dp/" +:+ productId)).

(** A text of white space only. *)
Definition whiteSpace (s : string) : Prop := Str.all Char.isWhiteSpace s = true.

(** What [getDeliveryDateFromElement] reduces with: the earlier of two
    dates, the second when neither is before the other. *)
Definition earlier (earliestDate date : Date) : Date :=
  if Number.lt (getTime earliestDate) (getTime date) then earliestDate else date.

(** [v] is the number [n], and [n] is neither [NaN] nor zero. *)
Definition present (v : option number) (n : number) : Prop :=
  v = Some n ∧ Number.isNaN n = false ∧ Number.isZero n = false.

Definition hasRating (p : Product) (r : number) : Prop := present (rating p) r.

Definition hasPrice (p : Product) (n : number) : Prop := present (price p) n.

(** A criterion the optimizer knows: one of the keys of [Optimizations]. *)
Definition recognized (type : string) : Prop := type ∈ keys Optimizations.

(** One turn of the loop with a recognized criterion. *)
Definition narrow (optimization : list Product → list Product)
    (optimizedProducts : list Product) : list Product :=
  if (length (optimization optimizedProducts) =? 0)%nat then optimizedProducts
  else optimization optimizedProducts.

(** The value returned is [null] or [undefined]. *)
Definition absent (o : optimized) : Prop :=
  match o with product _ => False | null | undefined => True end.

(** The last step in the words of the specification: among the
    candidates, those whose rating counts (neither absent nor zero) and is
    exceeded by no rating that counts; when there are none, the candidates
    as they were. *)
Definition topRated (cands : list Product) (p : Product) : bool :=
  Value.ToBoolean (rating p) &&
  forallb (λ q, negb (Value.ToBoolean (rating q) && Value.lt (rating p) (rating q))) cands.

Definition disambiguate (cands : list Product) : list Product :=
  match filter (topRated cands) cands with
  | [] => cands
  | best => best
  end.

(** Listings for the examples: with nothing but a price, with nothing at
    all, with nothing but a rating, with a price and a rating. *)
Definition priced (n : Z) : Product :=
  mkProduct None (Some (Number.of_Z n)) None None None.

Definition unpriced : Product := mkProduct None None None None None.

Definition rated (n : Z) : Product :=
  mkProduct None None None (Some (Number.of_Z n)) None.

Definition pricedAndRated (n r : Z) : Product :=
  mkProduct None (Some (Number.of_Z n)) None (Some (Number.of_Z r)) None.

(** A listing with nothing but a delivery date, at the time [t]. *)
Definition delivered (t : Z) : Product :=
  mkProduct None None (Some (mkDate (Number.of_Z t))) None None.

(** Three listings for the examples, and a document of two elements of
    which the second is a product element. *)
Definition threeListings : list Product :=
  [pricedAndRated 10 4; delivered 3; pricedAndRated 8 1].

Definition samplePage : list Element :=
  [mkElement None (Some "1.") (Some "00") None None [];
   mkElement (Some "B01") (Some "12.") (Some "99") (Some "4.5 out of 5 stars")
             (Some "1,234") ["Mon, Aug 2"]].

(** Takes apart what is known of a text that a pattern matches. *)
Ltac destruct_lang :=
  repeat match goal with
         | H : ∃ _, _ |- _ => destruct H
         | H : _ ∧ _ |- _ => destruct H
         | H : _ ∨ _ |- _ => destruct H
         end; subst.

(** * Properties *)

(** ** The order of the numbers *)

Module NumberFacts.
Import Number.

Lemma lt_Finite p q : lt (Finite p) (Finite q) = true ↔ (p < q)%Q.
Proof.
  unfold lt; simpl. rewrite Qlt_alt. destruct (p ?= q)%Q; split; congruence.
Qed.

Lemma strict_eq_Finite p q : strict_eq (Finite p) (Finite q) = true ↔ (p == q)%Q.
Proof.
  unfold strict_eq; simpl. rewrite Qeq_alt. destruct (p ?= q)%Q; split; congruence.
Qed.

Lemma lt_irrefl a : lt a a = false.
Proof.
  destruct a as [| |q|]; try reflexivity.
  apply not_true_is_false. rewrite lt_Finite. apply Qlt_irrefl.
Qed.

Lemma lt_trans a b c : lt a b = true → lt b c = true → lt a c = true.
Proof.
  destruct a as [| |p|], b as [| |q|], c as [| |r|]; try (cbv; congruence).
  rewrite !lt_Finite. apply Qlt_trans.
Qed.

(** When the accumulator of a minimum is replaced by a smaller number,
    what was not below the old one is not below the new one. *)
Lemma lt_replace_min x acc y :
  lt x acc = true → lt y acc = false → lt y x = false.
Proof.
  intros H1 H2. apply not_true_is_false. intros H3.
  rewrite (lt_trans _ _ _ H3 H1) in H2. discriminate.
Qed.

(** The same for a maximum. *)
Lemma lt_replace_max x acc y :
  lt acc x = true → lt acc y = false → lt x y = false.
Proof.
  intros H1 H2. apply not_true_is_false. intros H3.
  rewrite (lt_trans _ _ _ H1 H3) in H2. discriminate.
Qed.

Lemma lt_asym a b : lt a b = true → lt b a = false.
Proof.
  intros H. apply not_true_is_false. intros H'.
  pose proof (lt_trans _ _ _ H H') as Hc. rewrite lt_irrefl in Hc. congruence.
Qed.

Lemma lt_not_NaN_l a b : lt a b = true → isNaN a = false.
Proof. destruct a; [destruct b; cbv; congruence | reflexivity..]. Qed.

(** On numbers other than [NaN] the three outcomes exclude each other
    and one of them holds. *)
Lemma trichotomy a b :
  isNaN a = false → isNaN b = false →
  lt a b = true ∨ strict_eq a b = true ∨ lt b a = true.
Proof.
  destruct a as [| |p|], b as [| |q|]; try solve [cbv; intuition congruence].
  intros _ _. rewrite !lt_Finite, strict_eq_Finite.
  destruct (Q_dec p q) as [[H|H]|H]; auto.
Qed.

Lemma strict_eq_not_lt a b : strict_eq a b = true → lt a b = false ∧ lt b a = false.
Proof.
  destruct a as [| |p|], b as [| |q|]; try solve [cbv; intuition congruence].
  rewrite strict_eq_Finite. intros H.
  split; apply not_true_is_false; rewrite lt_Finite; rewrite H; apply Qlt_irrefl.
Qed.

Lemma strict_eq_refl a : isNaN a = false → strict_eq a a = true.
Proof.
  destruct a as [| |p|]; try (cbv; congruence).
  intros _. apply strict_eq_Finite. reflexivity.
Qed.

Lemma strict_eq_sym a b : strict_eq a b = strict_eq b a.
Proof.
  destruct a as [| |p|], b as [| |q|]; try reflexivity.
  apply eq_true_iff_eq. rewrite !strict_eq_Finite. split; intros H; symmetry; exact H.
Qed.

Lemma strict_eq_trans a b c :
  strict_eq a b = true → strict_eq b c = true → strict_eq a c = true.
Proof.
  destruct a as [| |p|], b as [| |q|], c as [| |r|]; try (cbv; congruence).
  rewrite !strict_eq_Finite. apply Qeq_trans.
Qed.

(** A number strictly equal to a truthy one is truthy. *)
Lemma strict_eq_ToBoolean a b :
  strict_eq a b = true → ToBoolean b = true → ToBoolean a = true.
Proof.
  destruct a as [| |p|], b as [| |q|]; try (cbv; congruence).
  rewrite strict_eq_Finite. unfold ToBoolean; simpl.
  rewrite !negb_true_iff. intros H Hq.
  apply not_true_is_false. intros Hp. apply Qeq_bool_iff in Hp.
  apply not_true_iff_false in Hq. apply Hq. apply Qeq_bool_iff.
  rewrite <- H. exact Hp.
Qed.

Lemma strict_eq_lt_l a b c : strict_eq a b = true → lt a c = lt b c.
Proof.
  destruct a as [| |p|], b as [| |q|]; try (cbv; congruence);
    destruct c as [| |r|]; try reflexivity.
  rewrite strict_eq_Finite. intros H.
  apply eq_true_iff_eq. rewrite !lt_Finite, H. reflexivity.
Qed.

Lemma strict_eq_lt_r a b c : strict_eq a b = true → lt c a = lt c b.
Proof.
  destruct a as [| |p|], b as [| |q|]; try (cbv; congruence);
    destruct c as [| |r|]; try reflexivity.
  rewrite strict_eq_Finite. intros H.
  apply eq_true_iff_eq. rewrite !lt_Finite, H. reflexivity.
Qed.

Lemma ToBoolean_not_NaN a : ToBoolean a = true → isNaN a = false.
Proof. destruct a; cbv; congruence. Qed.

Lemma ToBoolean_not_zero a : ToBoolean a = true → isZero a = false.
Proof.
  unfold ToBoolean. rewrite negb_true_iff, orb_false_iff. tauto.
Qed.

End NumberFacts.

(** ** Doubles *)

Module DoubleFacts.
Import Double.

Lemma Qred_inject_Z n : Qred (inject_Z n) = inject_Z n.
Proof.
  unfold Qred, inject_Z.
  pose proof (Z.ggcd_gcd n 1) as Hg. pose proof (Z.ggcd_correct_divisors n 1) as Hd.
  destruct (Z.ggcd n 1) as [g [a b]]. simpl in Hg, Hd.
  rewrite Z.gcd_1_r in Hg. subst g. destruct Hd as [Ha Hb].
  rewrite Z.mul_1_l in Ha, Hb. subst a b. reflexivity.
Qed.

Lemma nearestEven_1 n : nearestEven n 1 = n.
Proof. unfold nearestEven. rewrite Z.mod_1_r, Z.div_1_r. reflexivity. Qed.

Lemma scale_exact n k : 0 <= k → scale (n * 2 ^ k) (- k) = inject_Z n.
Proof.
  intros Hk. unfold scale. destruct (0 <=? - k) eqn:H0.
  - apply Z.leb_le in H0. assert (k = 0) as -> by lia.
    change (- 0) with 0. change (2 ^ 0) with 1. now rewrite !Z.mul_1_r.
  - rewrite Z.opp_involutive, <- Qred_inject_Z. apply Qred_complete.
    unfold Qeq, inject_Z. cbn [Qnum Qden].
    rewrite Z2Pos.id by (apply Z.pow_pos_nonneg; lia). lia.
Qed.

Lemma exponentOf_Z n : 0 < n → exponentOf n 1 = Z.log2 n.
Proof.
  intros Hn. unfold exponentOf. change (Z.log2 1) with 0. rewrite Z.sub_0_r.
  pose proof (Z.log2_nonneg n) as Hl. pose proof (Z.log2_spec n Hn) as [Hlo _].
  destruct (0 <=? Z.log2 n) eqn:H0; [|apply Z.leb_gt in H0; lia].
  rewrite Z.mul_1_l. apply Z.leb_le in Hlo. now rewrite Hlo.
Qed.

Lemma nearest_Z n : 0 < n < 2 ^ 53 → nearest n 1 = Finite (inject_Z n).
Proof.
  intros [Hpos Hlt]. unfold nearest. rewrite (exponentOf_Z n Hpos).
  pose proof (Z.log2_nonneg n) as Hl.
  assert (Z.log2 n < 53) as Hl53 by (apply Z.log2_lt_pow2; assumption).
  rewrite Z.max_l by lia.
  set (k := 52 - Z.log2 n). assert (0 <= k) as Hk by (unfold k; lia).
  replace (Z.log2 n - 52) with (- k) by (unfold k; lia).
  rewrite Z.opp_involutive.
  assert ((if 0 <=? - k then nearestEven n (1 * 2 ^ (- k)) else nearestEven (n * 2 ^ k) 1)
          = n * 2 ^ k) as ->.
  { destruct (0 <=? - k) eqn:H0; [|apply nearestEven_1].
    apply Z.leb_le in H0. assert (k = 0) as -> by lia.
    change (- 0) with 0. change (2 ^ 0) with 1. rewrite !Z.mul_1_r. apply nearestEven_1. }
  assert ((0 <=? - k) && (2 ^ 1024 <=? n * 2 ^ k * 2 ^ (- k)) = false) as ->.
  { destruct (0 <=? - k) eqn:H0; [|reflexivity].
    apply Z.leb_le in H0. assert (k = 0) as -> by lia.
    change (- 0) with 0. change (2 ^ 0) with 1. rewrite !Z.mul_1_r. cbn [andb].
    apply Z.leb_gt. eapply Z.lt_trans; [exact Hlt|].
    apply Z.pow_lt_mono_r; lia. }
  now rewrite scale_exact.
Qed.

(** An integer below 2^53 is a double: rounding does not change it. *)
Lemma round_Z n : - 2 ^ 53 < n < 2 ^ 53 → round (inject_Z n) = Number.of_Z n.
Proof.
  intros Hn. unfold round, Number.of_Z, inject_Z. cbn [Qnum Qden].
  destruct n as [|p|p]; [reflexivity | apply nearest_Z; lia|].
  rewrite (nearest_Z (Z.pos p)) by lia. reflexivity.
Qed.

Lemma round_not_NaN q : Number.isNaN (round q) = false.
Proof.
  unfold round, nearest.
  destruct (Qnum q); [reflexivity | |]; now destruct (_ && _).
Qed.

(** The rounding at work: a tie goes to the even significand, [0.1] is
    the double below it, the least subnormal number is [2^-1074] and what
    is below its half is zero, and [Infinity] starts half a step above
    the greatest double. *)
Lemma round_examples :
  round (inject_Z 9007199254740993) = Number.of_Z 9007199254740992 ∧
  round (inject_Z 9007199254740995) = Number.of_Z 9007199254740996 ∧
  decimal false 1 (-1) = Finite (Qmake 3602879701896397 (2 ^ 55)) ∧
  decimal false 5 (-324) = Finite (Qmake 1 (2 ^ 1074)) ∧
  decimal false 2 (-324) = Finite 0 ∧
  decimal true 1 (-400) = Finite 0 ∧
  decimal false 17976931348623158 292 = Number.of_Z ((2 ^ 53 - 1) * 2 ^ 971) ∧
  decimal false 17976931348623159 292 = Infinity ∧
  decimal true 1 400 = NegInfinity.
Proof. vm_compute. repeat split. Qed.

Lemma decimal_integer negative n :
  decimal negative n 0 = round (inject_Z (if negative then - n else n)).
Proof. unfold decimal. now rewrite Z.pow_0_r, Z.mul_1_r. Qed.

End DoubleFacts.

(** ** Reducing to an extremum *)

Section Extremum.
Context {A : Type}.

(** [replace acc x] says that the reducer drops the accumulator [acc]
    for the element [x]. *)
Variable replace : A → A → bool.
Hypothesis replace_irrefl : ∀ x, replace x x = false.
Hypothesis replace_step :
  ∀ acc x y, replace acc x = true → replace acc y = false → replace x y = false.

Lemma foldl_pick_elem l a : foldl (pick replace) a l ∈ a :: l.
Proof.
  revert a. induction l as [|x l IH]; intros a; simpl.
  - left.
  - destruct (replace a x) eqn:Hx.
    + replace (pick replace a x) with x by (unfold pick; now rewrite Hx).
      right. apply IH.
    + replace (pick replace a x) with a by (unfold pick; now rewrite Hx).
      destruct (elem_of_cons l (foldl (pick replace) a l) a) as [[->|Hin] _];
        [apply IH | left | do 2 right; exact Hin].
Qed.

Lemma foldl_pick_keeps l a y :
  replace a y = false → replace (foldl (pick replace) a l) y = false.
Proof.
  revert a. induction l as [|x l IH]; intros a Hy; simpl; [exact Hy|].
  apply IH. unfold pick. destruct (replace a x) eqn:Hx; eauto.
Qed.

Lemma foldl_pick_best l a y : y ∈ a :: l → replace (foldl (pick replace) a l) y = false.
Proof.
  revert a. induction l as [|x l IH]; intros a Hin; simpl.
  - apply list_elem_of_singleton in Hin as ->. apply replace_irrefl.
  - apply elem_of_cons in Hin as [->|Hin].
    + apply foldl_pick_keeps. unfold pick.
      destruct (replace a x) eqn:Hx; eauto.
    + apply elem_of_cons in Hin as [->|Hin].
      * apply foldl_pick_keeps. unfold pick.
        destruct (replace a x) eqn:Hx; eauto.
      * apply IH. now right.
Qed.

(** Reducing from the first element, as the reducers do. *)
Lemma foldl_pick_first_elem x l : foldl (pick replace) x (x :: l) ∈ x :: l.
Proof.
  simpl. unfold pick at 2. rewrite replace_irrefl. apply foldl_pick_elem.
Qed.

Lemma foldl_pick_first_best x l y :
  y ∈ x :: l → replace (foldl (pick replace) x (x :: l)) y = false.
Proof.
  simpl. unfold pick at 2. rewrite replace_irrefl. apply foldl_pick_best.
Qed.

End Extremum.

(** ** Which values the reducers look at *)

Lemma ToBoolean_present v : Value.ToBoolean v = true ↔ ∃ n, present v n.
Proof.
  unfold present. destruct v as [n|]; simpl.
  - unfold Number.ToBoolean. rewrite negb_true_iff, orb_false_iff. split.
    + intros [? ?]. eauto.
    + intros (? & [= <-] & ? & ?). auto.
  - split; [discriminate | intros (? & [=] & _)].
Qed.

Lemma strict_eq_present v n :
  Number.ToBoolean n = true →
  (Value.ToBoolean v && Value.strict_eq v (Some n) : bool) ↔ Value.strict_eq v (Some n).
Proof.
  intros Hn. destruct v as [x|]; simpl; [|tauto].
  destruct (Number.strict_eq x n) eqn:Hx; [|rewrite andb_false_r; tauto].
  rewrite (NumberFacts.strict_eq_ToBoolean _ _ Hx Hn). tauto.
Qed.

Lemma filter_none {A} (P : A → Prop) `{!∀ x, Decision (P x)} (l : list A) :
  (∀ x, x ∈ l → ¬ P x) → filter P l = [].
Proof.
  induction l as [|x l IH]; intros Hl; [reflexivity|].
  rewrite filter_cons_False by (apply Hl; left).
  apply IH. intros y Hy. apply Hl. now right.
Qed.

(** ** The extremum of a number field *)

Section FieldExtremum.
Variable field : Product → option number.
Variable replace : option number → option number → bool.
Hypothesis replace_irrefl : ∀ x, replace x x = false.
Hypothesis replace_step :
  ∀ acc x y, replace acc x = true → replace acc y = false → replace x y = false.

(** The extremum is [null] when no listing has the field, and the field
    of a listing that has it otherwise. *)
Lemma extremumOf_elem productDetails :
  match extremumOf field replace productDetails with
  | None => filter (λ p, Value.ToBoolean (field p)) productDetails = []
  | Some extremum => ∃ p, p ∈ productDetails ∧ present (field p) extremum
  end.
Proof.
  unfold extremumOf.
  destruct (filter _ productDetails) as [|q kept] eqn:Hkept; [reflexivity|].
  pose proof (foldl_pick_first_elem replace replace_irrefl (field q) (field <$> kept))
    as Hin.
  change (field q :: (field <$> kept)) with (field <$> (q :: kept)) in Hin.
  apply list_elem_of_fmap in Hin as (p & Hp & Hin).
  rewrite <- Hkept in Hin. apply list_elem_of_filter in Hin as [Htrue Hin].
  apply Is_true_true, ToBoolean_present in Htrue as (n & Hn).
  rewrite Hp. destruct Hn as (Hr & ? & ?). rewrite Hr.
  exists p. split; [exact Hin|]. repeat split; auto.
Qed.

(** No listing that has the field replaces the extremum. *)
Lemma extremumOf_best productDetails extremum p n :
  extremumOf field replace productDetails = Some extremum →
  p ∈ productDetails → present (field p) n → replace (Some extremum) (Some n) = false.
Proof.
  unfold extremumOf.
  destruct (filter _ productDetails) as [|q kept] eqn:Hkept; [discriminate|].
  intros Hsome Hin Hn.
  assert (field p ∈ field q :: (field <$> kept)) as Hmem.
  { rewrite <- fmap_cons. apply list_elem_of_fmap. exists p. split; [reflexivity|].
    rewrite <- Hkept. apply list_elem_of_filter. split; [|exact Hin].
    apply Is_true_true, ToBoolean_present. exists n. exact Hn. }
  pose proof (foldl_pick_first_best replace replace_irrefl replace_step _ _ _ Hmem)
    as Hbest.
  rewrite fmap_cons in Hsome. rewrite Hsome in Hbest.
  destruct Hn as (Hn & _). rewrite Hn in Hbest. exact Hbest.
Qed.

Lemma extremumOf_ToBoolean productDetails extremum :
  extremumOf field replace productDetails = Some extremum →
  Number.ToBoolean extremum = true.
Proof.
  intros H. pose proof (extremumOf_elem productDetails) as Helem.
  rewrite H in Helem. destruct Helem as (q & _ & _ & ? & ?).
  apply (ToBoolean_present (Some extremum)). exists extremum. repeat split; auto.
Qed.

Lemma extremumOf_None productDetails p n :
  extremumOf field replace productDetails = None →
  p ∈ productDetails → ¬ present (field p) n.
Proof.
  intros H Hin Hn. pose proof (extremumOf_elem productDetails) as Helem.
  rewrite H in Helem.
  assert (p ∈ filter (λ p, Value.ToBoolean (field p)) productDetails) as Hmem.
  { apply list_elem_of_filter. split; [|exact Hin].
    apply Is_true_true, ToBoolean_present. exists n. exact Hn. }
  rewrite Helem in Hmem. inversion Hmem.
Qed.

(** The listings whose field is truthy and strictly equal to the extremum
    are those whose field is strictly equal to it. *)
Lemma filter_extremumOf productDetails extremum :
  extremumOf field replace productDetails = Some extremum →
  filter (λ p, Value.ToBoolean (field p) && Value.strict_eq (field p) (Some extremum))
         productDetails =
  filter (λ p, Value.strict_eq (field p) (Some extremum)) productDetails.
Proof.
  intros H. apply list_filter_iff. intros p.
  apply strict_eq_present, (extremumOf_ToBoolean _ _ H).
Qed.

End FieldExtremum.

(** ** Highest rating *)

Lemma Value_lt_irrefl v : Value.lt v v = false.
Proof. apply NumberFacts.lt_irrefl. Qed.

Lemma Value_lt_step acc x y :
  Value.lt acc x = true → Value.lt acc y = false → Value.lt x y = false.
Proof. apply NumberFacts.lt_replace_max. Qed.

Lemma getHighestRatingOfProducts_eq productDetails :
  getHighestRatingOfProducts productDetails = extremumOf rating Value.lt productDetails.
Proof.
  unfold getHighestRatingOfProducts, extremumOf. now destruct (filter _ productDetails).
Qed.

Lemma getHighestRatingOfProducts_elem productDetails :
  match getHighestRatingOfProducts productDetails with
  | None => filter (λ p, Value.ToBoolean (rating p)) productDetails = []
  | Some highest => ∃ p, p ∈ productDetails ∧ hasRating p highest
  end.
Proof.
  rewrite getHighestRatingOfProducts_eq.
  apply (extremumOf_elem rating Value.lt Value_lt_irrefl).
Qed.

Lemma getHighestRatingOfProducts_best productDetails highest p r :
  getHighestRatingOfProducts productDetails = Some highest →
  p ∈ productDetails → hasRating p r → Number.le r highest.
Proof.
  rewrite getHighestRatingOfProducts_eq.
  apply (extremumOf_best rating Value.lt Value_lt_irrefl Value_lt_step).
Qed.

Lemma getHighestRatingOfProducts_ToBoolean productDetails highest :
  getHighestRatingOfProducts productDetails = Some highest →
  Number.ToBoolean highest = true.
Proof.
  rewrite getHighestRatingOfProducts_eq.
  apply (extremumOf_ToBoolean rating Value.lt Value_lt_irrefl).
Qed.

Lemma getProductsOfHighestRating_None productDetails :
  getHighestRatingOfProducts productDetails = None →
  getProductsOfHighestRating productDetails = [].
Proof. intros H. unfold getProductsOfHighestRating. now rewrite H. Qed.

Lemma getProductsOfHighestRating_Some productDetails highest :
  getHighestRatingOfProducts productDetails = Some highest →
  getProductsOfHighestRating productDetails =
    filter (λ p, Value.strict_eq (rating p) (Some highest)) productDetails.
Proof.
  intros H. pose proof (getHighestRatingOfProducts_ToBoolean _ _ H) as Htrue.
  unfold getProductsOfHighestRating. rewrite H. simpl. rewrite Htrue. simpl.
  rewrite getHighestRatingOfProducts_eq in H.
  apply (filter_extremumOf rating Value.lt Value_lt_irrefl _ _ H).
Qed.

(** The listings left out make no difference to what the reducers
    return. *)
Lemma getHighestRatingOfProducts_kept productDetails :
  getHighestRatingOfProducts (filter (λ p, Value.ToBoolean (rating p)) productDetails) =
  getHighestRatingOfProducts productDetails.
Proof.
  unfold getHighestRatingOfProducts. now rewrite list_filter_filter_l.
Qed.

Lemma getProductsOfHighestRating_kept productDetails :
  getProductsOfHighestRating (filter (λ p, Value.ToBoolean (rating p)) productDetails) =
  getProductsOfHighestRating productDetails.
Proof.
  unfold getProductsOfHighestRating. rewrite getHighestRatingOfProducts_kept.
  destruct (negb _); [reflexivity|].
  apply list_filter_filter_l. intros p Hp. now apply andb_True in Hp as [Hp _].
Qed.

(** C6.  The highest-rating reducers leave out every listing whose rating
    is absent or zero (and a rating that is not a number): with or without
    these listings they return the same, and none of them is returned.
    The extremum is a rating of one of the other listings and is below
    none of their ratings.  [getProductsOfHighestRating] returns, in
    order, exactly the listings whose rating is strictly equal to the
    extremum.  When no listing has a nonzero rating the extremum is
    [null] and the list is empty. *)
Theorem highest_rating_reducers (productDetails : list Product) :
  let kept := filter (λ p, Value.ToBoolean (rating p)) productDetails in
  (∀ p, p ∈ kept ↔ p ∈ productDetails ∧ ∃ r, hasRating p r) ∧
  getHighestRatingOfProducts kept = getHighestRatingOfProducts productDetails ∧
  getProductsOfHighestRating kept = getProductsOfHighestRating productDetails ∧
  (∀ p, p ∈ getProductsOfHighestRating productDetails → ∃ r, hasRating p r) ∧
  match getHighestRatingOfProducts productDetails with
  | Some highest =>
      (∃ p, p ∈ productDetails ∧ hasRating p highest) ∧
      (∀ p r, p ∈ productDetails → hasRating p r → Number.le r highest) ∧
      getProductsOfHighestRating productDetails =
        filter (λ p, Value.strict_eq (rating p) (Some highest)) productDetails
  | None =>
      (∀ p r, p ∈ productDetails → ¬ hasRating p r) ∧
      getProductsOfHighestRating productDetails = []
  end.
Proof.
  cbv zeta. split; [|split; [|split; [|split]]].
  - intros p. rewrite list_elem_of_filter, Is_true_true, ToBoolean_present.
    unfold hasRating. tauto.
  - apply getHighestRatingOfProducts_kept.
  - apply getProductsOfHighestRating_kept.
  - intros p. unfold getProductsOfHighestRating.
    destruct (negb _); [intros Hin; inversion Hin|].
    intros Hin. apply list_elem_of_filter in Hin as [Hp _].
    apply andb_True in Hp as [Hp _].
    apply ToBoolean_present, Is_true_true, Hp.
  - pose proof (getHighestRatingOfProducts_elem productDetails) as Helem.
    destruct (getHighestRatingOfProducts productDetails) as [highest|] eqn:Hext.
    + split; [exact Helem|].
      split; [intros p r; apply getHighestRatingOfProducts_best, Hext|].
      apply getProductsOfHighestRating_Some, Hext.
    + split; [|apply getProductsOfHighestRating_None, Hext].
      intros p r. rewrite getHighestRatingOfProducts_eq in Hext.
      apply (extremumOf_None rating Value.lt Value_lt_irrefl _ _ _ Hext).
Qed.

(** ** Lowest price *)

Lemma Value_gt_irrefl v : Value.gt v v = false.
Proof. apply NumberFacts.lt_irrefl. Qed.

Lemma Value_gt_step acc x y :
  Value.gt acc x = true → Value.gt acc y = false → Value.gt x y = false.
Proof. apply NumberFacts.lt_replace_min. Qed.

Lemma getLowestPriceOfProducts_eq productDetails :
  getLowestPriceOfProducts productDetails = extremumOf price Value.gt productDetails.
Proof.
  unfold getLowestPriceOfProducts, extremumOf. now destruct (filter _ productDetails).
Qed.

(** What the lowest-price reducers compute: the listings left out are
    those whose price is [null], zero or not a number; the extremum is a
    price of one of the others and above none of them, and
    [getProductsOfLowestPrice] returns, in order, the listings whose price
    is strictly equal to it. *)
Lemma lowest_price_reducers (productDetails : list Product) :
  match getLowestPriceOfProducts productDetails with
  | Some lowest =>
      (∃ p, p ∈ productDetails ∧ hasPrice p lowest) ∧
      (∀ p n, p ∈ productDetails → hasPrice p n → Number.le lowest n) ∧
      getProductsOfLowestPrice productDetails =
        filter (λ p, Value.strict_eq (price p) (Some lowest)) productDetails
  | None =>
      (∀ p n, p ∈ productDetails → ¬ hasPrice p n) ∧
      getProductsOfLowestPrice productDetails = []
  end.
Proof.
  unfold getProductsOfLowestPrice. rewrite getLowestPriceOfProducts_eq.
  pose proof (extremumOf_elem price Value.gt Value_gt_irrefl productDetails) as Helem.
  destruct (extremumOf price Value.gt productDetails) as [lowest|] eqn:Hext.
  - split; [exact Helem|]. split.
    + intros p n.
      apply (extremumOf_best price Value.gt Value_gt_irrefl Value_gt_step _ _ _ _ Hext).
    + apply (filter_extremumOf price Value.gt Value_gt_irrefl _ _ Hext).
  - assert (∀ p n, p ∈ productDetails → ¬ hasPrice p n) as Hnone
      by (intros p n; apply (extremumOf_None price Value.gt Value_gt_irrefl _ _ _ Hext)).
    split; [exact Hnone|].
    apply filter_none. intros p Hin Hp.
    apply andb_True in Hp as [Hp _].
    apply Is_true_true, ToBoolean_present in Hp as (n & Hn).
    exact (Hnone p n Hin Hn).
Qed.

(** The example of the specification. *)
Example getProductsOfLowestPrice_example :
  getProductsOfLowestPrice [priced 5; priced 5; unpriced; priced 8] = [priced 5; priced 5].
Proof. vm_compute. reflexivity. Qed.

(** C3.  A listing whose price is [0] has a price, and the lowest-price
    reducers leave it out all the same: of a free listing and one at 5,
    the lowest price is 5 and the listing at 5 is returned. *)
Theorem lowest_price_leaves_out_zero :
  getPriceFromElement (mkElement None (Some "0.") (Some "00") None None [])
    = Some (Number.of_Z 0) ∧
  price (priced 0) = Some (Number.of_Z 0) ∧
  getLowestPriceOfProducts [priced 0; priced 5] = Some (Number.of_Z 5) ∧
  getProductsOfLowestPrice [priced 0; priced 5] = [priced 5].
Proof. vm_compute. repeat split. Qed.

(** ** The table of optimizations *)

Lemma elem_of_keys {V} (o : gmap string V) (k : string) : k ∈ keys o ↔ is_Some (o !! k).
Proof.
  unfold keys. rewrite list_elem_of_fmap. split.
  - intros ([k' v] & -> & Hin). apply elem_of_map_to_list in Hin. now exists v.
  - intros [v Hv]. exists (k, v). split; [reflexivity|]. now apply elem_of_map_to_list.
Qed.

Lemma Optimizations_lookup type optimization :
  Optimizations !! type = Some optimization ↔
  (type = "PRICE" ∧ optimization = getProductsOfLowestPrice) ∨
  (type = "DELIVERY_DATE" ∧ optimization = getFastestDeliveredProducts) ∨
  (type = "RATING" ∧ optimization = getProductsOfHighestRating).
Proof.
  unfold Optimizations. split.
  - intros H.
    apply lookup_insert_Some in H as [[<- <-]|[_ H]]; [auto|].
    apply lookup_insert_Some in H as [[<- <-]|[_ H]]; [auto|].
    apply lookup_singleton_Some in H as [<- <-]. auto.
  - intros [[-> ->]|[[-> ->]|[-> ->]]]; reflexivity.
Qed.

Lemma recognized_iff type :
  recognized type ↔ type = "PRICE" ∨ type = "DELIVERY_DATE" ∨ type = "RATING".
Proof.
  unfold recognized. rewrite elem_of_keys. split.
  - intros [f Hf]. apply Optimizations_lookup in Hf. tauto.
  - intros [-> | [-> | ->]]; eexists; reflexivity.
Qed.

Lemma includes_keys type : includes (keys Optimizations) type = true ↔ recognized type.
Proof. unfold includes, recognized. apply bool_decide_eq_true. Qed.

(** Every optimization returns some of the listings it is given, in their
    order. *)
Lemma getProductsOfLowestPrice_sublist l : getProductsOfLowestPrice l `sublist_of` l.
Proof. apply sublist_filter. Qed.

Lemma getFastestDeliveredProducts_sublist l : getFastestDeliveredProducts l `sublist_of` l.
Proof.
  unfold getFastestDeliveredProducts. destruct (getEarliestDeliveryDateOfProducts l).
  - etransitivity; apply sublist_filter.
  - apply sublist_nil_l.
Qed.

Lemma getProductsOfHighestRating_sublist l : getProductsOfHighestRating l `sublist_of` l.
Proof.
  unfold getProductsOfHighestRating. destruct (negb _).
  - apply sublist_nil_l.
  - apply sublist_filter.
Qed.

Lemma Optimizations_sublist type optimization l :
  Optimizations !! type = Some optimization → optimization l `sublist_of` l.
Proof.
  intros H. apply Optimizations_lookup in H as [[_ ->]|[[_ ->]|[_ ->]]].
  - apply getProductsOfLowestPrice_sublist.
  - apply getFastestDeliveredProducts_sublist.
  - apply getProductsOfHighestRating_sublist.
Qed.

(** ** The loop *)

Lemma cascade_cons_recognized optimizedProducts type rest optimization :
  Optimizations !! type = Some optimization →
  cascade optimizedProducts (type :: rest) = cascade (narrow optimization optimizedProducts) rest.
Proof.
  intros H. simpl.
  assert (includes (keys Optimizations) type = true) as ->.
  { apply includes_keys, elem_of_keys. now exists optimization. }
  rewrite H. unfold narrow. simpl.
  now destruct (length (optimization optimizedProducts) =? 0)%nat.
Qed.

Lemma cascade_cons_unrecognized optimizedProducts type rest :
  ¬ recognized type → cascade optimizedProducts (type :: rest) = None.
Proof.
  intros H. simpl.
  destruct (includes (keys Optimizations) type) eqn:Hin; [|reflexivity].
  apply includes_keys in Hin. contradiction.
Qed.

Lemma recognized_lookup type :
  recognized type → ∃ optimization, Optimizations !! type = Some optimization.
Proof. intros H. apply elem_of_keys in H. exact H. Qed.

Lemma recognized_dec type : recognized type ∨ ¬ recognized type.
Proof. unfold recognized. destruct (decide (type ∈ keys Optimizations)); auto. Qed.

Lemma narrow_sublist type optimization l :
  Optimizations !! type = Some optimization → narrow optimization l `sublist_of` l.
Proof.
  intros H. unfold narrow. destruct (length _ =? 0)%nat; [reflexivity|].
  eapply Optimizations_sublist, H.
Qed.

Lemma narrow_nonempty optimization l : l ≠ [] → narrow optimization l ≠ [].
Proof.
  intros Hl. unfold narrow. destruct (length _ =? 0)%nat eqn:Hlen; [exact Hl|].
  apply Nat.eqb_neq in Hlen. intros Hnil. rewrite Hnil in Hlen. now apply Hlen.
Qed.

Lemma cascade_app optimizedProducts before rest :
  cascade optimizedProducts (before ++ rest) =
  cascade optimizedProducts before ≫= λ cands, cascade cands rest.
Proof.
  revert optimizedProducts. induction before as [|type before IH]; intros l; [reflexivity|].
  destruct (recognized_dec type) as [Hr|Hr].
  - destruct (recognized_lookup _ Hr) as [f Hf].
    rewrite <- app_comm_cons, !(cascade_cons_recognized _ _ _ _ Hf). apply IH.
  - rewrite <- app_comm_cons, !cascade_cons_unrecognized by exact Hr. reflexivity.
Qed.

(** The loop leaves the function early exactly when some criterion is not
    recognized. *)
Lemma cascade_None optimizedProducts optimizationTypes :
  cascade optimizedProducts optimizationTypes = None ↔
  ∃ type, type ∈ optimizationTypes ∧ ¬ recognized type.
Proof.
  revert optimizedProducts.
  induction optimizationTypes as [|type rest IH]; intros l.
  - split; [discriminate | intros (? & Hin & _); inversion Hin].
  - destruct (recognized_dec type) as [Hr|Hr].
    + destruct (recognized_lookup _ Hr) as [f Hf].
      rewrite (cascade_cons_recognized _ _ _ _ Hf), IH. split.
      * intros (t & Hin & Ht). exists t. split; [now right | exact Ht].
      * intros (t & Hin & Ht). exists t. split; [|exact Ht].
        apply elem_of_cons in Hin as [->|Hin]; [contradiction | exact Hin].
    + rewrite cascade_cons_unrecognized by exact Hr. split; [|reflexivity].
      intros _. exists type. split; [left | exact Hr].
Qed.

(** The candidates are always some of the listings given, in their order,
    and never run out. *)
Lemma cascade_Some optimizedProducts optimizationTypes cands :
  cascade optimizedProducts optimizationTypes = Some cands →
  cands `sublist_of` optimizedProducts ∧ (optimizedProducts ≠ [] → cands ≠ []).
Proof.
  revert optimizedProducts.
  induction optimizationTypes as [|type rest IH]; intros l.
  - intros [= ->]. split; [reflexivity | auto].
  - destruct (recognized_dec type) as [Hr|Hr].
    + destruct (recognized_lookup _ Hr) as [f Hf].
      rewrite (cascade_cons_recognized _ _ _ _ Hf). intros H.
      apply IH in H as [Hsub Hne]. split.
      * etransitivity; [exact Hsub | eapply narrow_sublist, Hf].
      * intros Hl. apply Hne, narrow_nonempty, Hl.
    + rewrite cascade_cons_unrecognized by exact Hr. discriminate.
Qed.

Lemma tieBreak_sublist cands : tieBreak cands `sublist_of` cands.
Proof.
  unfold tieBreak. destruct (1 <? length cands)%nat; [|reflexivity].
  destruct (negb _); [apply getProductsOfHighestRating_sublist | reflexivity].
Qed.

Lemma tieBreak_nonempty cands : cands ≠ [] → tieBreak cands ≠ [].
Proof.
  intros Hc. unfold tieBreak. destruct (1 <? length cands)%nat; [|exact Hc].
  destruct (length _ =? 0)%nat eqn:Hlen; simpl; [exact Hc|].
  apply Nat.eqb_neq in Hlen. intros Hnil. rewrite Hnil in Hlen. now apply Hlen.
Qed.

Lemma first_absent l : absent (first l) ↔ l = [].
Proof. destruct l; simpl; split; (tauto || discriminate). Qed.

(** ** The optimizer *)

(** C1, as amended.  [getProductOptimizedFor] returns no listing exactly
    when the listings are empty or some criterion of the list is not
    recognized; so for listings that are not empty and criteria that are
    all recognized (none at all included) it returns a listing. *)
Theorem getProductOptimizedFor_absent_iff
    (productDetails : list Product) (optimizationTypes : list string) :
  absent (getProductOptimizedFor productDetails optimizationTypes) ↔
  productDetails = [] ∨ ∃ type, type ∈ optimizationTypes ∧ ¬ recognized type.
Proof.
  unfold getProductOptimizedFor.
  destruct (cascade productDetails optimizationTypes) as [cands|] eqn:Hc.
  - rewrite first_absent. pose proof (cascade_Some _ _ _ Hc) as [Hsub Hne]. split.
    + intros Hnil. left.
      destruct productDetails as [|p l]; [reflexivity|].
      exfalso. apply (tieBreak_nonempty cands); [|exact Hnil]. now apply Hne.
    + intros [->|Hex].
      * apply sublist_nil_r in Hsub as ->. reflexivity.
      * apply (cascade_None productDetails) in Hex. congruence.
  - split; [|exact (λ _, I)]. intros _. right.
    apply (cascade_None productDetails), Hc.
Qed.

(** C1, as stated, fails: one listing and the criteria [PRICE] and an
    unknown one give [null], though the listings are not empty and
    [PRICE] is recognized. *)
Lemma absent_with_recognized_criterion :
  ¬ (absent (getProductOptimizedFor [priced 5] ["PRICE"; "BOGUS"]) →
     [priced 5] = [] ∨ ∀ type, type ∈ ["PRICE"; "BOGUS"] → ¬ recognized type).
Proof.
  intros H. destruct H as [H|H].
  - vm_compute. exact I.
  - discriminate H.
  - apply (H "PRICE"); [left|]. apply recognized_iff. now left.
Qed.

(** C8.  A criterion that is not one of [PRICE], [DELIVERY_DATE] and
    [RATING], anywhere in the list, makes [getProductOptimizedFor] return
    [null], whatever the listings and the other criteria. *)
Theorem unrecognized_criterion_null
    (productDetails : list Product) (optimizationTypes : list string) (type : string) :
  type ∈ optimizationTypes →
  type ∉ ["PRICE"; "DELIVERY_DATE"; "RATING"] →
  getProductOptimizedFor productDetails optimizationTypes = null.
Proof.
  intros Hin Hnot. unfold getProductOptimizedFor.
  assert (cascade productDetails optimizationTypes = None) as ->; [|reflexivity].
  apply cascade_None. exists type. split; [exact Hin|].
  intros Hr. apply Hnot. apply recognized_iff in Hr as [-> | [-> | ->]].
  - left.
  - right; left.
  - do 2 right; left.
Qed.

Lemma unrecognized_criterion_null_witness :
  "BOGUS" ∈ ["DELIVERY_DATE"; "BOGUS"] ∧
  ("BOGUS" ∉ ["PRICE"; "DELIVERY_DATE"; "RATING"]) ∧
  getProductOptimizedFor [priced 5; rated 4] ["DELIVERY_DATE"; "BOGUS"] = null.
Proof.
  assert ("BOGUS" ∈ ["DELIVERY_DATE"; "BOGUS"]) as Hin by (right; left).
  assert ("BOGUS" ∉ ["PRICE"; "DELIVERY_DATE"; "RATING"]) as Hnot.
  { intros H. repeat (apply elem_of_cons in H as [H|H]; [discriminate H|]).
    inversion H. }
  split; [exact Hin|]. split; [exact Hnot|].
  exact (unrecognized_criterion_null _ _ _ Hin Hnot).
Defined.

Lemma getProductsOfLowestPrice_no_price l :
  (∀ p, p ∈ l → price p = None) → getProductsOfLowestPrice l = [].
Proof.
  intros H. apply filter_none. intros p Hin. rewrite (H p Hin). simpl. tauto.
Qed.

Lemma narrow_empty optimization l : optimization l = [] → narrow optimization l = l.
Proof. intros H. unfold narrow. rewrite H. reflexivity. Qed.

(** C7.  When a recognized criterion, at any place of the list, finds no
    listing at its extremum among the current candidates, the candidates
    stay as they are and the loop goes on with the next criterion: the
    call returns what it returns without this criterion.  So with listings
    that have no price, [PRICE, RATING] returns what [RATING] alone
    returns. *)
Theorem criterion_without_extremum_skipped
    (productDetails : list Product) (before rest : list string) (type : string)
    (cands : list Product) (optimization : list Product → list Product) :
  (cascade productDetails before = Some cands →
   Optimizations !! type = Some optimization →
   optimization cands = [] →
   cascade productDetails (before ++ [type]) = Some cands ∧
   cascade productDetails (before ++ type :: rest) = cascade cands rest ∧
   getProductOptimizedFor productDetails (before ++ type :: rest) =
     getProductOptimizedFor productDetails (before ++ rest)) ∧
  ((∀ p, p ∈ productDetails → price p = None) →
   getProductOptimizedFor productDetails ["PRICE"; "RATING"] =
     getProductOptimizedFor productDetails ["RATING"]).
Proof.
  split.
  - intros Hbefore Hf Hempty.
    assert (∀ l, cascade productDetails (before ++ type :: l) = cascade cands l) as Hskip.
    { intros l. rewrite cascade_app, Hbefore.
      change (cascade cands (type :: l) = cascade cands l).
      rewrite (cascade_cons_recognized _ _ _ _ Hf), narrow_empty by exact Hempty.
      reflexivity. }
    split; [apply Hskip|]. split; [apply Hskip|].
    unfold getProductOptimizedFor.
    rewrite Hskip, (cascade_app _ before rest), Hbefore. reflexivity.
  - intros Hnone. unfold getProductOptimizedFor.
    rewrite (cascade_cons_recognized _ "PRICE" _ getProductsOfLowestPrice) by reflexivity.
    rewrite narrow_empty by (apply getProductsOfLowestPrice_no_price, Hnone).
    reflexivity.
Qed.

Lemma criterion_without_extremum_skipped_witness :
  cascade [rated 4; rated 5] ["RATING"] = Some [rated 5] ∧
  Optimizations !! "PRICE" = Some getProductsOfLowestPrice ∧
  getProductsOfLowestPrice [rated 5] = [] ∧
  (∀ p, p ∈ [rated 4; rated 5] → price p = None) ∧
  getProductOptimizedFor [rated 4; rated 5] ["RATING"; "PRICE"; "DELIVERY_DATE"] =
    getProductOptimizedFor [rated 4; rated 5] ["RATING"; "DELIVERY_DATE"] ∧
  getProductOptimizedFor [rated 4; rated 5] ["PRICE"; "RATING"] =
    getProductOptimizedFor [rated 4; rated 5] ["RATING"].
Proof.
  assert (cascade [rated 4; rated 5] ["RATING"] = Some [rated 5]) as H1
    by (vm_compute; reflexivity).
  assert (Optimizations !! "PRICE" = Some getProductsOfLowestPrice) as H2 by reflexivity.
  assert (getProductsOfLowestPrice [rated 5] = []) as H3 by (vm_compute; reflexivity).
  assert (∀ p, p ∈ [rated 4; rated 5] → price p = None) as H4.
  { intros p H. repeat (apply elem_of_cons in H as [->|H]; [reflexivity|]). inversion H. }
  split; [exact H1|]. split; [exact H2|]. split; [exact H3|]. split; [exact H4|].
  pose proof (criterion_without_extremum_skipped
                [rated 4; rated 5] ["RATING"] ["DELIVERY_DATE"] "PRICE"
                [rated 5] getProductsOfLowestPrice) as [Hskip Hprice].
  split; [exact (proj2 (proj2 (Hskip H1 H2 H3))) | exact (Hprice H4)].
Defined.

(** C10.  Every optimization returns some of the listings it is given,
    in their order.  The candidates the optimizer works on are at every
    turn of the loop, and after the last narrowing by rating, some of the
    listings given, in their order; so a listing that is returned is one
    of the listings given. *)
Theorem candidates_sublist
    (productDetails : list Product) (optimizationTypes : list string) :
  (∀ type optimization cands,
     Optimizations !! type = Some optimization →
     optimization cands `sublist_of` cands) ∧
  (∀ before rest cands,
     optimizationTypes = before ++ rest →
     cascade productDetails before = Some cands →
     cands `sublist_of` productDetails) ∧
  (∀ cands,
     cascade productDetails optimizationTypes = Some cands →
     tieBreak cands `sublist_of` cands ∧ tieBreak cands `sublist_of` productDetails) ∧
  (∀ p,
     getProductOptimizedFor productDetails optimizationTypes = product p →
     p ∈ productDetails).
Proof.
  split; [|split; [|split]].
  - intros type optimization cands. apply Optimizations_sublist.
  - intros before rest cands _ Hc. apply cascade_Some in Hc. tauto.
  - intros cands Hc. apply cascade_Some in Hc as [Hsub _].
    split; [apply tieBreak_sublist|].
    etransitivity; [apply tieBreak_sublist | exact Hsub].
  - intros p. unfold getProductOptimizedFor.
    destruct (cascade productDetails optimizationTypes) as [cands|] eqn:Hc;
      [|discriminate].
    apply cascade_Some in Hc as [Hsub _]. unfold first.
    destruct (tieBreak cands) as [|q l] eqn:Ht; simpl; [discriminate|].
    intros [= ->].
    assert (p :: l `sublist_of` productDetails) as Hall.
    { rewrite <- Ht. etransitivity; [apply tieBreak_sublist | exact Hsub]. }
    eapply sublist_subseteq; [exact Hall | left].
Qed.

Lemma candidates_sublist_witness :
  getProductOptimizedFor [rated 4; priced 5; rated 5] ["PRICE"; "RATING"] =
    product (priced 5) ∧
  priced 5 ∈ [rated 4; priced 5; rated 5].
Proof.
  assert (getProductOptimizedFor [rated 4; priced 5; rated 5] ["PRICE"; "RATING"] =
            product (priced 5)) as H by (vm_compute; reflexivity).
  split; [exact H|].
  exact (proj2 (proj2 (proj2 (candidates_sublist _ _))) _ H).
Defined.

(** ** The final disambiguation *)

Lemma filter_iff_in {A} (P Q : A → Prop) `{!∀ x, Decision (P x), !∀ x, Decision (Q x)}
    (l : list A) :
  (∀ x, x ∈ l → P x ↔ Q x) → filter P l = filter Q l.
Proof.
  induction l as [|x l IH]; intros Hiff; [reflexivity|].
  rewrite !filter_cons.
  rewrite IH by (intros y Hy; apply Hiff; now right).
  destruct (decide (P x)) as [HP|HP], (decide (Q x)) as [HQ|HQ]; try reflexivity.
  - exfalso. apply HQ, Hiff, HP. left.
  - exfalso. apply HP, Hiff, HQ. left.
Qed.

Lemma topRated_spec cands p :
  topRated cands p = true ↔
  Value.ToBoolean (rating p) = true ∧
  ∀ q, q ∈ cands →
       Value.ToBoolean (rating q) = true → Value.lt (rating p) (rating q) = false.
Proof.
  unfold topRated. rewrite andb_true_iff, forallb_forall.
  split; intros [Hp Hall]; (split; [exact Hp|]).
  - intros q Hin Hq. apply list_elem_of_In, Hall in Hin.
    rewrite Hq in Hin. simpl in Hin. now apply negb_true_iff in Hin.
  - intros q Hin. apply list_elem_of_In in Hin.
    destruct (Value.ToBoolean (rating q)) eqn:Hq; [|reflexivity].
    simpl. rewrite (Hall q Hin Hq). reflexivity.
Qed.

(** The reducer of the code returns the listings the specification
    describes. *)
Lemma getProductsOfHighestRating_topRated cands :
  getProductsOfHighestRating cands = filter (topRated cands) cands.
Proof.
  destruct (getHighestRatingOfProducts cands) as [highest|] eqn:Hext.
  - rewrite (getProductsOfHighestRating_Some _ _ Hext).
    pose proof (getHighestRatingOfProducts_ToBoolean _ _ Hext) as Htrue.
    pose proof (getHighestRatingOfProducts_elem cands) as Helem.
    rewrite Hext in Helem. destruct Helem as (q0 & Hq0in & Hq0).
    apply filter_iff_in. intros p Hin.
    rewrite !Is_true_true, topRated_spec. split.
    + intros Heq. destruct (rating p) as [r|] eqn:Hr; [|discriminate]. simpl in Heq.
      split; [exact (NumberFacts.strict_eq_ToBoolean _ _ Heq Htrue)|].
      intros q Hq Hqtrue.
      apply ToBoolean_present in Hqtrue as (s & Hs).
      unfold Value.lt. simpl. destruct Hs as (Hs & Hs').
      rewrite Hs. simpl. rewrite (NumberFacts.strict_eq_lt_l _ _ _ Heq).
      eapply getHighestRatingOfProducts_best; [exact Hext | exact Hq |].
      split; [exact Hs | exact Hs'].
    + intros [Hp Hall].
      pose proof Hp as Hp'. apply ToBoolean_present in Hp' as (r & Hr).
      assert (Number.lt highest r = false) as Hle
        by (eapply getHighestRatingOfProducts_best; eauto).
      assert (Number.lt r highest = false) as Hge.
      { specialize (Hall q0 Hq0in).
        destruct Hq0 as (Hq0 & Hq0'). destruct Hr as (Hr & _).
        rewrite Hq0, Hr in Hall. apply Hall. exact Htrue. }
      destruct Hr as (Hr & Hnan & _). rewrite Hr. simpl.
      destruct (NumberFacts.trichotomy r highest Hnan
                  (NumberFacts.ToBoolean_not_NaN _ Htrue)) as [H|[H|H]];
        [congruence | exact H | congruence].
  - rewrite (getProductsOfHighestRating_None _ Hext). symmetry.
    pose proof (getHighestRatingOfProducts_elem cands) as Helem.
    rewrite Hext in Helem.
    apply filter_none. intros p Hin Hp.
    apply Is_true_true, topRated_spec in Hp as [Hp _].
    assert (p ∈ filter (λ p, Value.ToBoolean (rating p)) cands) as Hmem.
    { apply list_elem_of_filter. split; [now apply Is_true_true | exact Hin]. }
    rewrite Helem in Hmem. inversion Hmem.
Qed.

Lemma tieBreak_disambiguate cands :
  tieBreak cands = if (1 <? length cands)%nat then disambiguate cands else cands.
Proof.
  unfold tieBreak, disambiguate. rewrite getProductsOfHighestRating_topRated.
  destruct (1 <? length cands)%nat; [|reflexivity].
  now destruct (filter (topRated cands) cands).
Qed.

(** C9.  With criteria that are all recognized the loop ends with the
    candidates [cands], some of the listings given, in their order.  When
    more than one is left they are narrowed to the candidates with the
    highest rating, zero counting as no rating, unless there is none; this
    is so whatever the criteria were.  The first of what is left is
    returned. *)
Theorem final_disambiguation
    (productDetails : list Product) (optimizationTypes : list string) :
  (∀ type, type ∈ optimizationTypes → recognized type) →
  ∃ cands,
    cascade productDetails optimizationTypes = Some cands ∧
    cands `sublist_of` productDetails ∧
    let final := if (1 <? length cands)%nat then disambiguate cands else cands in
    final `sublist_of` cands ∧
    getProductOptimizedFor productDetails optimizationTypes =
      match final with
      | [] => undefined
      | p :: _ => product p
      end.
Proof.
  intros Hall.
  destruct (cascade productDetails optimizationTypes) as [cands|] eqn:Hc.
  - exists cands. split; [reflexivity|].
    split; [apply (cascade_Some _ _ _ Hc)|].
    simpl. rewrite <- tieBreak_disambiguate.
    split; [apply tieBreak_sublist|].
    unfold getProductOptimizedFor. rewrite Hc. unfold first.
    now destruct (tieBreak cands).
  - apply cascade_None in Hc as (type & Hin & Hnot).
    exfalso. apply Hnot, Hall, Hin.
Qed.

Lemma final_disambiguation_witness :
  (∀ type, type ∈ ["PRICE"] → recognized type) ∧
  ∃ cands,
    cascade [pricedAndRated 10 4; pricedAndRated 10 5; pricedAndRated 15 5] ["PRICE"]
      = Some cands ∧
    cands `sublist_of` [pricedAndRated 10 4; pricedAndRated 10 5; pricedAndRated 15 5] ∧
    let final := if (1 <? length cands)%nat then disambiguate cands else cands in
    final `sublist_of` cands ∧
    getProductOptimizedFor
      [pricedAndRated 10 4; pricedAndRated 10 5; pricedAndRated 15 5] ["PRICE"] =
      match final with
      | [] => undefined
      | p :: _ => product p
      end.
Proof.
  assert (∀ type, type ∈ ["PRICE"] → recognized type) as H.
  { intros type Hin. apply list_elem_of_singleton in Hin as ->.
    apply recognized_iff. now left. }
  split; [exact H|].
  exact (final_disambiguation _ _ H).
Defined.

(** The end-to-end example of the specification. *)
Example getProductOptimizedFor_example :
  let A := mkProduct (Some "A") (Some (Number.of_Z 10)) (Some (mkDate (Number.of_Z 2)))
             (Some (Number.of_Z 4)) None in
  let B := mkProduct (Some "B") (Some (Number.of_Z 10)) (Some (mkDate (Number.of_Z 3)))
             (Some (Number.of_Z 5)) None in
  let C := mkProduct (Some "C") (Some (Number.of_Z 15)) (Some (mkDate (Number.of_Z 1)))
             (Some (Number.of_Z 5)) None in
  cascade [A; B; C] ["PRICE"] = Some [A; B] ∧
  getProductOptimizedFor [A; B; C] ["PRICE"; "RATING"; "DELIVERY_DATE"] = product B ∧
  getProductOptimizedFor [A; B; C] ["DELIVERY_DATE"; "PRICE"; "RATING"] = product C ∧
  getProductOptimizedFor [A; B; C] ["PRICE"] = product B.
Proof. vm_compute. repeat split. Qed.

(** ** Prices *)

Module StrFacts.

(** What the parsers need to know of a decimal digit. *)
Lemma digit_facts c :
  Char.isDigit c = true →
  Char.isWhiteSpace c = false ∧
  Ascii.eqb "I" c = false ∧
  (∀ s, Str.sign (String c s) = (false, String c s)).
Proof.
  destruct c as [[] [] [] [] [] [] [] []]; intros H; try discriminate H;
    repeat split.
Qed.

Lemma app_cons c s1 s2 : String c s1 +:+ s2 = String c (s1 +:+ s2).
Proof. reflexivity. Qed.

Lemma app_empty_l s : EmptyString +:+ s = s.
Proof. reflexivity. Qed.

Lemma allDigits_cons c s :
  Str.allDigits (String c s) ↔ Char.isDigit c = true ∧ Str.allDigits s.
Proof. unfold Str.allDigits. simpl. apply andb_true_iff. Qed.

Lemma allDigits_app s1 s2 : Str.allDigits s1 → Str.allDigits s2 → Str.allDigits (s1 +:+ s2).
Proof.
  induction s1 as [|c s1 IH]; [auto|]. intros H1 H2.
  rewrite app_cons. apply allDigits_cons. apply allDigits_cons in H1 as [? ?]. split; auto.
Qed.

Lemma spanDigits_allDigits s : Str.allDigits s → Str.spanDigits s = (s, EmptyString).
Proof.
  induction s as [|c s IH]; [reflexivity|].
  rewrite allDigits_cons. intros [Hc Hs]. simpl. rewrite Hc, (IH Hs). reflexivity.
Qed.

Lemma digitsValue_app acc s1 s2 :
  Str.digitsValue acc (s1 +:+ s2) = Str.digitsValue (Str.digitsValue acc s1) s2.
Proof.
  revert acc. induction s1 as [|c s1 IH]; intros acc; [reflexivity|].
  rewrite app_cons. simpl. apply IH.
Qed.

Lemma digitsValue_acc acc s :
  Str.digitsValue acc s = acc * 10 ^ Z.of_nat (String.length s) + Str.digitsValue 0 s.
Proof.
  revert acc. induction s as [|c s IH]; intros acc.
  - simpl. lia.
  - cbn [Str.digitsValue String.length]. rewrite (IH (10 * acc + _)), (IH (10 * 0 + _)).
    rewrite Nat2Z.inj_succ, Z.pow_succ_r by lia. lia.
Qed.

Lemma app_empty_r s : s +:+ EmptyString = s.
Proof. induction s as [|c s IH]; [reflexivity|]. rewrite app_cons, IH. reflexivity. Qed.

Lemma digitValue_nonneg c : Char.isDigit c = true → 0 <= Char.digitValue c.
Proof.
  destruct c as [[] [] [] [] [] [] [] []]; intros H; try discriminate H;
    vm_compute; discriminate.
Qed.

Lemma digitsValue_nonneg acc s :
  Str.allDigits s → 0 <= acc → 0 <= Str.digitsValue acc s.
Proof.
  revert acc. induction s as [|c s IH]; intros acc Hs Hacc; [exact Hacc|].
  apply allDigits_cons in Hs as [Hc Hs]. cbn [Str.digitsValue].
  apply IH; [exact Hs|]. pose proof (digitValue_nonneg c Hc). lia.
Qed.

(** [parseFloat] reads a string of digits as the double nearest to the
    integer they write. *)
Lemma parseFloat_allDigits s :
  Str.allDigits s → s ≠ EmptyString →
  parseFloat s = Double.round (inject_Z (Str.digitsValue 0 s)).
Proof.
  intros Hs Hne. destruct s as [|c s]; [contradiction|].
  pose proof Hs as Hc. apply allDigits_cons in Hc as [Hc _].
  destruct (digit_facts c Hc) as (Hws & HI & Hsign).
  unfold parseFloat.
  assert (Str.trimStart (String c s) = String c s) as ->
    by (cbn [Str.trimStart]; now rewrite Hws).
  rewrite Hsign.
  assert (Str.startsWith "Infinity" (String c s) = false) as ->
    by (cbn [Str.startsWith]; now rewrite HI).
  rewrite (spanDigits_allDigits _ Hs). cbn [Str.spanDigits].
  rewrite app_empty_r. cbn [exponentPart String.length].
  change (0 - Z.of_nat 0) with 0. apply DoubleFacts.decimal_integer.
Qed.

End StrFacts.

(** C5.  When both parts of the price are there and are digits, not both
    empty, [getPriceFromElement] returns [parseFloat] of the two texts put
    together, which is the Number value for the integer that the digits of
    the whole followed by the digits of the fraction write: no decimal
    point comes between them.  Below 2^53 the price is that integer
    itself; from there on it is the double nearest to it, so that
    [90071992547409] and [93] give 9007199254740992.  [12] and [99] give
    1299, and [12] without a fraction gives [null]. *)
Theorem getPriceFromElement_concatenates
    (productElement : Element) (whole fraction : string) :
  priceWhole productElement = Some whole →
  priceFraction productElement = Some fraction →
  Str.allDigits whole →
  Str.allDigits fraction →
  whole +:+ fraction ≠ EmptyString →
  getPriceFromElement productElement = Some (parseFloat (whole +:+ fraction)) ∧
  getPriceFromElement productElement =
    Some (Double.round
            (inject_Z (Str.digitsValue 0 whole * 10 ^ Z.of_nat (String.length fraction)
                       + Str.digitsValue 0 fraction))) ∧
  (Str.digitsValue 0 whole * 10 ^ Z.of_nat (String.length fraction)
     + Str.digitsValue 0 fraction < 2 ^ 53 →
   getPriceFromElement productElement =
     Some (Number.of_Z (Str.digitsValue 0 whole * 10 ^ Z.of_nat (String.length fraction)
                        + Str.digitsValue 0 fraction))) ∧
  getPriceFromElement (mkElement None (Some "12") (Some "99") None None [])
    = Some (Number.of_Z 1299) ∧
  getPriceFromElement (mkElement None (Some "90071992547409") (Some "93") None None [])
    = Some (Number.of_Z 9007199254740992) ∧
  getPriceFromElement (mkElement None (Some "12") None None None []) = None.
Proof.
  intros Hw Hf Hdw Hdf Hne.
  assert (getPriceFromElement productElement = Some (parseFloat (whole +:+ fraction))) as H.
  { unfold getPriceFromElement. rewrite Hw, Hf.
    destruct (whole +:+ fraction); [contradiction | reflexivity]. }
  assert (getPriceFromElement productElement =
            Some (Double.round
                    (inject_Z (Str.digitsValue 0 whole
                                 * 10 ^ Z.of_nat (String.length fraction)
                               + Str.digitsValue 0 fraction)))) as Hround.
  { rewrite H, StrFacts.parseFloat_allDigits
      by (try apply StrFacts.allDigits_app; assumption).
    rewrite StrFacts.digitsValue_app, StrFacts.digitsValue_acc. reflexivity. }
  split; [exact H|]. split; [exact Hround|].
  split; [|split; [|split]; vm_compute; reflexivity].
  intros Hlt. rewrite Hround, DoubleFacts.round_Z; [reflexivity|].
  pose proof (StrFacts.digitsValue_nonneg 0 (whole +:+ fraction)
                (StrFacts.allDigits_app _ _ Hdw Hdf) (Z.le_refl 0)) as Hpos.
  rewrite StrFacts.digitsValue_app, StrFacts.digitsValue_acc in Hpos. lia.
Qed.

Lemma getPriceFromElement_concatenates_witness :
  Str.allDigits "12" ∧ Str.allDigits "99" ∧ "12" +:+ "99" ≠ EmptyString ∧
  getPriceFromElement (mkElement None (Some "12") (Some "99") None None [])
    = Some (Number.of_Z (12 * 10 ^ 2 + 99)).
Proof.
  assert (Str.allDigits "12") as H12 by reflexivity.
  assert (Str.allDigits "99") as H99 by reflexivity.
  assert ("12" +:+ "99" ≠ EmptyString) as Hne by discriminate.
  split; [exact H12|]. split; [exact H99|]. split; [exact Hne|].
  exact (proj1 (proj2 (proj2 (getPriceFromElement_concatenates
                                (mkElement None (Some "12") (Some "99") None None [])
                                "12" "99" eq_refl eq_refl H12 H99 Hne)))
           eq_refl).
Defined.

(** The parsers of the rating, the rating count and the date never hand
    on a number that is [NaN]; they return [null] for it. *)
Lemma getRatingFromElement_not_NaN productElement rating :
  getRatingFromElement productElement = Some rating → Number.isNaN rating = false.
Proof.
  unfold getRatingFromElement. destruct (iconAlt productElement); [|discriminate].
  destruct (negb _); [discriminate|]. destruct (negb _); [discriminate|].
  destruct (Str.split _ _); [discriminate|].
  destruct (Number.isNaN _) eqn:H; [discriminate|]. now intros [= <-].
Qed.

Lemma getRatingCountFromElement_not_NaN productElement ratingCount :
  getRatingCountFromElement productElement = Some ratingCount →
  Number.isNaN ratingCount = false.
Proof.
  unfold getRatingCountFromElement. destruct (underlineText productElement); [|discriminate].
  destruct (negb _); [discriminate|].
  destruct (Number.isNaN _) eqn:H; [discriminate|]. now intros [= <-].
Qed.

Lemma parseDeliveryDateString_not_NaN fullYear newDate dateString date :
  parseDeliveryDateString fullYear newDate dateString = Some date →
  Number.isNaN (getTime date) = false.
Proof.
  unfold parseDeliveryDateString. destruct (negb _); [discriminate|].
  destruct (_ !! _); [|discriminate].
  destruct (Number.isNaN _) eqn:H; [discriminate|]. now intros [= <-].
Qed.

(** C4.  [getPriceFromElement] hands on [NaN] when the text of the two
    parts is not a number: for the texts [$12] and [99] it returns [NaN],
    not [null]. *)
Theorem getPriceFromElement_NaN :
  getPriceFromElement (mkElement None (Some "$12") (Some "99") None None []) = Some NaN.
Proof. reflexivity. Qed.

(** ** Patterns *)

Module RegExpFacts.
Import StrFacts.

Lemma app_assoc s1 s2 s3 : (s1 +:+ s2) +:+ s3 = s1 +:+ (s2 +:+ s3).
Proof.
  induction s1 as [|c s1 IH]; [reflexivity|]. rewrite !app_cons, IH. reflexivity.
Qed.

(** The matcher is right about what a pattern matches: it succeeds
    exactly when the pattern matches a prefix that leaves a rest the
    continuation accepts. *)
Lemma matchFrom_spec r : ∀ s k,
  RegExp.matchFrom r s k = true ↔
  ∃ s1 s2, s = s1 +:+ s2 ∧ lang r s1 ∧ k s2 = true.
Proof.
  induction r as [|c|lo hi|r1 IH1 r2 IH2|r1 IH1 r2 IH2]; intros s k; simpl.
  - split.
    + intros H. exists EmptyString, s. auto.
    + intros (s1 & s2 & -> & -> & H). exact H.
  - destruct s as [|a s]; [split; [discriminate|]|].
    + intros (s1 & s2 & Hs & -> & _). discriminate Hs.
    + rewrite andb_true_iff, Ascii.eqb_eq. split.
      * intros [-> H]. exists (String c EmptyString), s. auto.
      * intros (s1 & s2 & Hs & -> & H). injection Hs as -> ->. auto.
  - destruct s as [|a s]; [split; [discriminate|]|].
    + intros (s1 & s2 & Hs & (c & -> & _) & _). discriminate Hs.
    + rewrite andb_true_iff. split.
      * intros [Ha H]. exists (String a EmptyString), s. eauto.
      * intros (s1 & s2 & Hs & (c & -> & Hc) & H). injection Hs as -> ->. auto.
  - rewrite IH1. split.
    + intros (s1 & rest & -> & H1 & H). apply IH2 in H as (s2 & s3 & -> & H2 & H).
      exists (s1 +:+ s2), s3. rewrite app_assoc. eauto 10.
    + intros (s12 & s3 & -> & (s1 & s2 & -> & H1 & H2) & H).
      exists s1, (s2 +:+ s3). rewrite app_assoc. split; [reflexivity|].
      split; [exact H1|]. apply IH2. eauto.
  - rewrite orb_true_iff, IH1, IH2. split.
    + intros [(s1 & s2 & -> & H1 & H)|(s1 & s2 & -> & H1 & H)]; eauto 10.
    + intros (s1 & s2 & -> & [H1|H1] & H); eauto 10.
Qed.

Lemma test_spec r s : RegExp.test r s = true ↔ lang r s.
Proof.
  unfold RegExp.test. rewrite matchFrom_spec. split.
  - intros (s1 & s2 & -> & H & Hk). destruct s2; [|discriminate].
    now rewrite app_empty_r.
  - intros H. exists s, EmptyString. rewrite app_empty_r. auto.
Qed.

End RegExpFacts.

(** ** Splitting *)

Module SplitFacts.
Import StrFacts.

Lemma free_cons c a s : Str.free c (String a s) ↔ Ascii.eqb c a = false ∧ Str.free c s.
Proof. unfold Str.free. simpl. rewrite andb_true_iff, negb_true_iff. reflexivity. Qed.

Lemma free_app c s1 s2 : Str.free c (s1 +:+ s2) ↔ Str.free c s1 ∧ Str.free c s2.
Proof.
  induction s1 as [|a s1 IH].
  - rewrite app_empty_l. unfold Str.free at 2. simpl. tauto.
  - rewrite app_cons, !free_cons, IH. tauto.
Qed.

Lemma startsWith_app p s : Str.startsWith p (p +:+ s) = true.
Proof.
  induction p as [|c p IH]; [reflexivity|].
  rewrite app_cons. simpl. now rewrite Ascii.eqb_refl, IH.
Qed.

Lemma splitFrom_skip separator p s :
  Str.splitFrom separator (String.length p) (p +:+ s) = Str.splitFrom separator 0 s.
Proof. induction p as [|c p IH]; [reflexivity|]. rewrite app_cons. simpl. exact IH. Qed.

(** A text free of the first character of the separator, then the
    separator: the text is the first part. *)
Lemma split_first c separator s1 s2 :
  Str.free c s1 →
  Str.split (String c separator) (s1 +:+ String c separator +:+ s2) =
  s1 :: Str.split (String c separator) s2.
Proof.
  unfold Str.split. induction s1 as [|a s1 IH]; intros Hfree.
  - rewrite app_empty_l, app_cons.
    cbn [Str.splitFrom].
    rewrite <- app_cons, startsWith_app.
    cbn [String.length]. rewrite Nat.sub_1_r. cbn [Nat.pred].
    now rewrite splitFrom_skip.
  - apply free_cons in Hfree as [Ha Hfree]. rewrite app_cons.
    cbn [Str.splitFrom Str.startsWith]. rewrite Ha. cbn [andb].
    now rewrite (IH Hfree).
Qed.

(** A text free of the first character of the separator is one part. *)
Lemma split_free c separator s :
  Str.free c s → Str.split (String c separator) s = [s].
Proof.
  unfold Str.split. induction s as [|a s IH]; intros Hfree; [reflexivity|].
  apply free_cons in Hfree as [Ha Hfree].
  cbn [Str.splitFrom Str.startsWith]. rewrite Ha. cbn [andb].
  now rewrite (IH Hfree).
Qed.

(** A character of a range is none of the characters out of it. *)
Lemma between_free lo hi a c :
  Char.between lo hi a = true → Char.between lo hi c = false → Ascii.eqb c a = false.
Proof.
  intros Ha Hc. apply not_true_is_false. intros Heq.
  apply Ascii.eqb_eq in Heq as ->. congruence.
Qed.

End SplitFacts.

(** ** Delivery dates *)

Module DeliveryDateFacts.
Import StrFacts RegExpFacts SplitFacts DeliveryDate.

Lemma abbreviation_inv w :
  isAbbreviation w = true →
  ∃ c1 c2 c3,
    w = String c1 (String c2 (String c3 EmptyString)) ∧
    Char.between "A" "Z" c1 = true ∧
    Char.between "a" "z" c2 = true ∧
    Char.between "a" "z" c3 = true.
Proof.
  destruct w as [|c1 [|c2 [|c3 [|c4 w]]]]; try discriminate.
  simpl. rewrite !andb_true_iff. intros [[H1 H2] H3].
  exists c1, c2, c3. auto.
Qed.

Lemma day_inv d :
  isDay d = true →
  (∃ c1, d = String c1 EmptyString ∧ Char.between "0" "9" c1 = true) ∨
  (∃ c1 c2,
     d = String c1 (String c2 EmptyString) ∧
     Char.between "0" "9" c1 = true ∧ Char.between "0" "9" c2 = true).
Proof.
  destruct d as [|c1 [|c2 [|c3 d]]]; try discriminate; simpl.
  - intros H. left. eauto.
  - rewrite andb_true_iff. intros [H1 H2]. right. eauto.
Qed.

(** A character that is no letter does not occur in an abbreviation, and
    one that is no digit does not occur in a day. *)
Lemma abbreviation_free c w :
  isAbbreviation w = true →
  Char.between "A" "Z" c = false → Char.between "a" "z" c = false → Str.free c w.
Proof.
  intros Hw HU HL. apply abbreviation_inv in Hw as (c1 & c2 & c3 & -> & H1 & H2 & H3).
  rewrite !free_cons. repeat split; eauto using between_free.
Qed.

Lemma day_free c d : isDay d = true → Char.between "0" "9" c = false → Str.free c d.
Proof.
  intros Hd Hc.
  apply day_inv in Hd as [(c1 & -> & H1)|(c1 & c2 & -> & H1 & H2)];
    rewrite !free_cons; repeat split; eauto using between_free.
Qed.

Lemma lang_Lit p s : lang (RegExp.Lit p) s ↔ s = p.
Proof.
  revert s. induction p as [|c p IH]; intros s; simpl; [tauto|]. split.
  - intros (s1 & s2 & -> & -> & H). apply IH in H as ->. reflexivity.
  - intros ->. exists (String c EmptyString), p. rewrite IH. auto.
Qed.

(** The texts that [datePart] matches. *)
Lemma datePart_lang s :
  lang datePart s ↔
  ∃ weekday month day, isDate weekday month day ∧ s = dateText weekday month day.
Proof.
  split.
  - intros H.
    cbn [lang datePart RegExp.Times RegExp.Lit RegExp.Digit RegExp.Opt] in H.
    destruct_lang;
      match goal with
      | |- ∃ _ _ _, _ ∧ ?T = _ => let T' := eval cbv in T in change T with T'
      end;
      match goal with
      | |- ∃ _ _ _, _ ∧
             String ?a (String ?b (String ?c (String _ (String _
               (String ?e (String ?f (String ?g (String _ ?digits)))))))) = _ =>
          exists (String a (String b (String c EmptyString))),
                 (String e (String f (String g EmptyString))), digits
      end;
      (split; [|reflexivity]);
      unfold isDate, isAbbreviation, isDay, Char.isUpper, Char.isLower, Char.isDigit;
      repeat match goal with H : Char.between _ _ _ = true |- _ => rewrite H; clear H end;
      auto.
  - intros (w & m & d & (Hw & Hm & Hd) & ->).
    apply abbreviation_inv in Hw as (c1 & c2 & c3 & -> & H1 & H2 & H3).
    apply abbreviation_inv in Hm as (c4 & c5 & c6 & -> & H4 & H5 & H6).
    apply test_spec.
    apply day_inv in Hd as [(c7 & -> & H7)|(c7 & c8 & -> & H7 & H8)];
      cbv -[Char.between];
      repeat match goal with H : Char.between _ _ _ = true |- _ => rewrite H; clear H end;
      reflexivity.
Qed.

(** The texts that [basicPattern] matches. *)
Lemma basicPattern_lang s :
  lang basicPattern s ↔
  ∃ weekday month day range,
    isDate weekday month day ∧ isRangeEnd range ∧ s = dateText weekday month day +:+ range.
Proof.
  unfold basicPattern, RegExp.Opt. cbn [lang]. split.
  - intros (s1 & s2 & -> & H1 & H2).
    apply datePart_lang in H1 as (w & m & d & Hdate & ->).
    exists w, m, d, s2. split; [exact Hdate|]. split; [|reflexivity].
    destruct H2 as [(a & b & -> & Ha & Hb)| ->]; [right | now left].
    apply lang_Lit in Ha as ->.
    apply datePart_lang in Hb as (w' & m' & d' & Hdate' & ->). eauto 10.
  - intros (w & m & d & range & Hdate & Hrange & ->).
    exists (dateText w m d), range. split; [reflexivity|].
    split; [apply datePart_lang; eauto|].
    destruct Hrange as [->|(w' & m' & d' & Hdate' & ->)]; [now right | left].
    exists " - ", (dateText w' m' d'). split; [reflexivity|].
    split; [now apply lang_Lit | apply datePart_lang; eauto].
Qed.

Lemma free_comma_month_day m d :
  isAbbreviation m = true → isDay d = true → Str.free "," (m +:+ " " +:+ d).
Proof.
  intros Hm Hd. rewrite !free_app.
  split; [now apply abbreviation_free|]. split; [reflexivity | now apply day_free].
Qed.

(** What the two splits at a match come to: the second part at the
    commas starts with the month and the day of the first date. *)
Lemma split_month_day m d tail :
  isAbbreviation m = true → isDay d = true →
  tail = EmptyString ∨ (∃ rest, tail = " " +:+ rest) →
  Str.split " " (m +:+ " " +:+ d +:+ tail) !! 0%nat = Some m ∧
  Str.split " " (m +:+ " " +:+ d +:+ tail) !! 1%nat = Some d.
Proof.
  intros Hm Hd Htail.
  rewrite (split_first " " EmptyString m) by now apply abbreviation_free.
  split; [reflexivity|]. cbn [lookup list_lookup].
  destruct Htail as [->|(rest & ->)].
  - rewrite app_empty_r, (split_free " " EmptyString d) by now apply day_free.
    reflexivity.
  - rewrite (split_first " " EmptyString d) by now apply day_free. reflexivity.
Qed.

Lemma split_date w m d range :
  isDate w m d → isRangeEnd range →
  ∃ part,
    Str.split ", " (dateText w m d +:+ range) !! 1%nat = Some part ∧
    Str.split " " part !! 0%nat = Some m ∧
    Str.split " " part !! 1%nat = Some d.
Proof.
  intros (Hw & Hm & Hd) Hrange. unfold dateText.
  rewrite !app_assoc.
  rewrite (split_first "," " " w) by now apply abbreviation_free.
  cbn [lookup list_lookup].
  destruct Hrange as [->|(w' & m' & d' & (Hw' & Hm' & Hd') & ->)].
  - exists (m +:+ " " +:+ d).
    rewrite app_empty_r, (split_free "," " ") by now apply free_comma_month_day.
    split; [reflexivity|].
    pose proof (split_month_day m d EmptyString Hm Hd (or_introl eq_refl)) as H.
    rewrite app_empty_r in H. exact H.
  - exists (m +:+ " " +:+ d +:+ " - " +:+ w'). unfold dateText.
    replace (m +:+ " " +:+ d +:+ " - " +:+ w' +:+ ", " +:+ m' +:+ " " +:+ d')
      with ((m +:+ " " +:+ d +:+ " - " +:+ w') +:+ ", " +:+ m' +:+ " " +:+ d')
      by (now rewrite !app_assoc).
    rewrite (split_first "," " ").
    + split; [reflexivity|]. apply split_month_day; auto.
      right. exists ("- " +:+ w'). reflexivity.
    + replace (m +:+ " " +:+ d +:+ " - " +:+ w')
        with ((m +:+ " " +:+ d) +:+ " - " +:+ w') by (now rewrite !app_assoc).
      apply free_app. split; [now apply free_comma_month_day|].
      apply free_app. split; [reflexivity | now apply abbreviation_free].
Qed.

End DeliveryDateFacts.

(** C2, as amended.  [parseDeliveryDateString] returns a date exactly when
    the text, white space at its two ends taken off, is [Weekday, Month
    Day], followed or not by [ - Weekday, Month Day], and the engine makes
    a valid date of [Month Day, Year] with the month and the day of the
    first date and the current year; the date returned is that one.  In
    every other case it returns [null]. *)
Theorem parseDeliveryDateString_spec
    (fullYear : Z) (newDate : string → Date) (dateString : string) (date : Date) :
  parseDeliveryDateString fullYear newDate dateString = Some date ↔
  ∃ weekday month day range,
    Str.trim dateString = DeliveryDate.dateText weekday month day +:+ range ∧
    DeliveryDate.isDate weekday month day ∧
    DeliveryDate.isRangeEnd range ∧
    date = newDate (month +:+ " " +:+ day +:+ ", " +:+ pretty fullYear) ∧
    Number.isNaN (getTime date) = false.
Proof.
  unfold parseDeliveryDateString. split.
  - destruct (RegExp.test _ _) eqn:Htest; [|discriminate]. cbn [negb].
    apply RegExpFacts.test_spec, DeliveryDateFacts.basicPattern_lang in Htest
      as (w & m & d & range & Hdate & Hrange & Htrim).
    destruct (DeliveryDateFacts.split_date w m d range Hdate Hrange)
      as (part & Hpart & Hmonth & Hday).
    rewrite Htrim, Hpart, Hmonth, Hday. cbn [default from_option]. unfold id.
    destruct (Number.isNaN _) eqn:Hnan; [discriminate|]. intros [= <-].
    exists w, m, d, range. auto.
  - intros (w & m & d & range & Htrim & Hdate & Hrange & -> & Hnan).
    assert (RegExp.test DeliveryDate.basicPattern (Str.trim dateString) = true) as ->.
    { apply RegExpFacts.test_spec, DeliveryDateFacts.basicPattern_lang.
      exists w, m, d, range. auto. }
    destruct (DeliveryDateFacts.split_date w m d range Hdate Hrange)
      as (part & Hpart & Hmonth & Hday).
    cbn [negb]. rewrite Htrim, Hpart, Hmonth, Hday. cbn [default from_option]. unfold id.
    rewrite Hnan. reflexivity.
Qed.

Lemma parseDeliveryDateString_spec_witness :
  parseDeliveryDateString 2021 (SampleEngine.newDate true) "Mon, Aug 2" =
    Some (mkDate (Number.of_Z 1627862400000)) ∧
  parseDeliveryDateString 2021 (SampleEngine.newDate true) "Mon, Aug 2 - Wed, Aug 4" =
    Some (mkDate (Number.of_Z 1627862400000)).
Proof.
  assert (DeliveryDate.isDate "Mon" "Aug" "2") as Hfirst by (repeat split).
  assert (DeliveryDate.isDate "Wed" "Aug" "4") as Hsecond by (repeat split).
  split.
  - apply (proj2 (parseDeliveryDateString_spec 2021 (SampleEngine.newDate true)
                    "Mon, Aug 2" (mkDate (Number.of_Z 1627862400000)))).
    exists "Mon", "Aug", "2", EmptyString.
    split; [reflexivity|]. split; [exact Hfirst|]. split; [now left|].
    split; reflexivity.
  - apply (proj2 (parseDeliveryDateString_spec 2021 (SampleEngine.newDate true)
                    "Mon, Aug 2 - Wed, Aug 4" (mkDate (Number.of_Z 1627862400000)))).
    exists "Mon", "Aug", "2", " - Wed, Aug 4".
    split; [reflexivity|]. split; [exact Hfirst|].
    split; [right; exists "Wed", "Aug", "4"; split; [exact Hsecond | reflexivity]|].
    split; reflexivity.
Defined.

(** C2, as stated, fails: a text with a space before the date does not
    match the pattern, and a date is returned for it. *)
Lemma parseDeliveryDateString_trims :
  ¬ (RegExp.test DeliveryDate.basicPattern " Mon, Aug 2" = false →
     parseDeliveryDateString 2021 (SampleEngine.newDate true) " Mon, Aug 2" = None).
Proof. intros H. discriminate (H eq_refl). Qed.

(** The texts of the specification that do not match give [null], with
    every engine and in every year. *)
Lemma parseDeliveryDateString_no_match fullYear newDate :
  parseDeliveryDateString fullYear newDate "August 2" = None ∧
  parseDeliveryDateString fullYear newDate "Mon, August 2" = None ∧
  parseDeliveryDateString fullYear newDate "mon, Aug 2" = None.
Proof. repeat split. Qed.

(** What is returned for a day past the end of the month is the engine's
    choice: the date that many days on, or [null]. *)
Lemma parseDeliveryDateString_Feb_30 :
  parseDeliveryDateString 2021 (SampleEngine.newDate true) "Tue, Feb 30" =
    Some (mkDate (Number.of_Z 1614643200000)) ∧
  parseDeliveryDateString 2021 (SampleEngine.newDate false) "Tue, Feb 30" = None.
Proof. split; reflexivity. Qed.

(** * Further properties *)

Lemma ToBoolean_present_Some v n :
  v = Some n → Number.ToBoolean n = true → present v n.
Proof.
  intros -> H. destruct (proj1 (ToBoolean_present (Some n)) H) as (m & [= <-] & Hm).
  split; [reflexivity | exact Hm].
Qed.

(** ** Optimizing twice *)

Lemma filter_all {A} (P : A → Prop) `{!∀ x, Decision (P x)} (l : list A) :
  (∀ x, x ∈ l → P x) → filter P l = l.
Proof.
  induction l as [|x l IH]; intros Hl; [reflexivity|].
  rewrite filter_cons_True by (apply Hl; left).
  f_equal. apply IH. intros y Hy. apply Hl. now right.
Qed.

Section AtExtremum.
Variable field : Product → option number.
Variable replace : option number → option number → bool.
Hypothesis replace_irrefl : ∀ x, replace x x = false.

Lemma atExtremum_None productDetails :
  extremumOf field replace productDetails = None →
  atExtremum field replace productDetails = [].
Proof.
  intros H. unfold atExtremum. rewrite H. apply filter_none. intros p _ Hp.
  apply andb_True in Hp as [Hp Heq]. destruct (field p); [exact Heq | exact Hp].
Qed.

Lemma atExtremum_Some productDetails extremum :
  extremumOf field replace productDetails = Some extremum →
  atExtremum field replace productDetails =
  filter (λ p, Value.strict_eq (field p) (Some extremum)) productDetails.
Proof.
  intros H. unfold atExtremum. rewrite H.
  apply (filter_extremumOf field replace replace_irrefl _ _ H).
Qed.

(** The listings at the extremum are all at the extremum of their own. *)
Lemma atExtremum_idem productDetails :
  atExtremum field replace (atExtremum field replace productDetails) =
  atExtremum field replace productDetails.
Proof.
  destruct (extremumOf field replace productDetails) as [e|] eqn:He.
  - rewrite (atExtremum_Some _ _ He).
    set (R := filter (λ p, Value.strict_eq (field p) (Some e)) productDetails).
    pose proof (extremumOf_elem field replace replace_irrefl R) as Helem.
    destruct (extremumOf field replace R) as [e'|] eqn:He'.
    + rewrite (atExtremum_Some _ _ He').
      destruct Helem as (q & Hq & Hfield & _).
      apply list_elem_of_filter in Hq as [Hq _]. rewrite Hfield in Hq.
      apply Is_true_true in Hq. simpl in Hq.
      apply filter_all. intros p Hp. apply list_elem_of_filter in Hp as [Hp _].
      destruct (field p) as [x|]; [|exact Hp]. simpl in *.
      apply Is_true_true in Hp. apply Is_true_true.
      rewrite NumberFacts.strict_eq_sym in Hq.
      exact (NumberFacts.strict_eq_trans _ _ _ Hp Hq).
    + rewrite (atExtremum_None _ He'). symmetry.
      pose proof (extremumOf_ToBoolean field replace replace_irrefl _ _ He) as Htrue.
      apply filter_none. intros p Hin Hp.
      assert (p ∈ filter (λ p, Value.ToBoolean (field p)) R) as Hmem.
      { apply list_elem_of_filter. split; [|apply list_elem_of_filter; auto].
        apply (strict_eq_present (field p) e Htrue) in Hp.
        now apply andb_True in Hp as [Hp _]. }
      rewrite Helem in Hmem. inversion Hmem.
  - rewrite (atExtremum_None _ He). reflexivity.
Qed.

End AtExtremum.

Lemma getProductsOfLowestPrice_atExtremum productDetails :
  getProductsOfLowestPrice productDetails = atExtremum price Value.gt productDetails.
Proof.
  unfold getProductsOfLowestPrice, atExtremum.
  now rewrite getLowestPriceOfProducts_eq.
Qed.

Lemma getProductsOfHighestRating_atExtremum productDetails :
  getProductsOfHighestRating productDetails = atExtremum rating Value.lt productDetails.
Proof.
  destruct (getHighestRatingOfProducts productDetails) as [highest|] eqn:H.
  - rewrite (getProductsOfHighestRating_Some _ _ H).
    rewrite getHighestRatingOfProducts_eq in H.
    now rewrite (atExtremum_Some rating Value.lt Value_lt_irrefl _ _ H).
  - rewrite (getProductsOfHighestRating_None _ H).
    rewrite getHighestRatingOfProducts_eq in H.
    now rewrite (atExtremum_None rating Value.lt _ H).
Qed.

Lemma getProductsOfLowestPrice_idem productDetails :
  getProductsOfLowestPrice (getProductsOfLowestPrice productDetails) =
  getProductsOfLowestPrice productDetails.
Proof.
  rewrite !getProductsOfLowestPrice_atExtremum.
  apply (atExtremum_idem price Value.gt Value_gt_irrefl).
Qed.

Lemma getProductsOfHighestRating_idem productDetails :
  getProductsOfHighestRating (getProductsOfHighestRating productDetails) =
  getProductsOfHighestRating productDetails.
Proof.
  rewrite !getProductsOfHighestRating_atExtremum.
  apply (atExtremum_idem rating Value.lt Value_lt_irrefl).
Qed.

(** ** Earliest delivery date *)

Lemma DateValue_gt_irrefl v : DateValue.gt v v = false.
Proof. apply NumberFacts.lt_irrefl. Qed.

Lemma DateValue_gt_step acc x y :
  DateValue.gt acc x = true → DateValue.gt acc y = false → DateValue.gt x y = false.
Proof. apply NumberFacts.lt_replace_min. Qed.

Lemma getEarliestDeliveryDateOfProducts_eq productDetails :
  getEarliestDeliveryDateOfProducts productDetails =
  match filter (λ p, DateValue.ToBoolean (deliveryDate p)) productDetails with
  | [] => None
  | q :: kept =>
      foldl (pick DateValue.gt) (deliveryDate q) (deliveryDate <$> (q :: kept))
  end.
Proof.
  unfold getEarliestDeliveryDateOfProducts. now destruct (filter _ productDetails).
Qed.

Lemma getEarliestDeliveryDateOfProducts_elem productDetails :
  match getEarliestDeliveryDateOfProducts productDetails with
  | None => filter (λ p, DateValue.ToBoolean (deliveryDate p)) productDetails = []
  | Some earliest => ∃ p, p ∈ productDetails ∧ deliveryDate p = Some earliest
  end.
Proof.
  rewrite getEarliestDeliveryDateOfProducts_eq.
  destruct (filter _ productDetails) as [|q kept] eqn:Hkept; [reflexivity|].
  pose proof (foldl_pick_first_elem DateValue.gt DateValue_gt_irrefl
                (deliveryDate q) (deliveryDate <$> kept)) as Hin.
  change (deliveryDate q :: (deliveryDate <$> kept))
    with (deliveryDate <$> (q :: kept)) in Hin.
  apply list_elem_of_fmap in Hin as (p & Hp & Hin).
  rewrite <- Hkept in Hin. apply list_elem_of_filter in Hin as [Htrue Hin].
  rewrite Hp. destruct (deliveryDate p) as [d|] eqn:Hd; [|contradiction].
  exists p. auto.
Qed.

Lemma getEarliestDeliveryDateOfProducts_best productDetails earliest p d :
  getEarliestDeliveryDateOfProducts productDetails = Some earliest →
  p ∈ productDetails → deliveryDate p = Some d →
  Number.le (getTime earliest) (getTime d).
Proof.
  rewrite getEarliestDeliveryDateOfProducts_eq.
  destruct (filter _ productDetails) as [|q kept] eqn:Hkept; [discriminate|].
  intros Hsome Hin Hd.
  assert (deliveryDate p ∈ deliveryDate q :: (deliveryDate <$> kept)) as Hmem.
  { rewrite <- fmap_cons. apply list_elem_of_fmap. exists p. split; [reflexivity|].
    rewrite <- Hkept. apply list_elem_of_filter. split; [|exact Hin].
    rewrite Hd. exact I. }
  pose proof (foldl_pick_first_best DateValue.gt DateValue_gt_irrefl DateValue_gt_step
                _ _ _ Hmem) as Hbest.
  rewrite fmap_cons in Hsome. rewrite Hsome, Hd in Hbest. exact Hbest.
Qed.

Lemma deliveredAt_ToBoolean date p :
  deliveredAt date p → DateValue.ToBoolean (deliveryDate p).
Proof. unfold deliveredAt. destruct (deliveryDate p); [intros _; exact I | auto]. Qed.

Lemma getFastestDeliveredProducts_eq productDetails :
  getFastestDeliveredProducts productDetails =
  match getEarliestDeliveryDateOfProducts productDetails with
  | None => []
  | Some earliest => filter (deliveredAt earliest) productDetails
  end.
Proof.
  unfold getFastestDeliveredProducts.
  destruct (getEarliestDeliveryDateOfProducts productDetails) as [e|]; [|reflexivity].
  apply (list_filter_filter_l (deliveredAt e)). apply deliveredAt_ToBoolean.
Qed.

Lemma getFastestDeliveredProducts_idem productDetails :
  getFastestDeliveredProducts (getFastestDeliveredProducts productDetails) =
  getFastestDeliveredProducts productDetails.
Proof.
  rewrite (getFastestDeliveredProducts_eq productDetails).
  destruct (getEarliestDeliveryDateOfProducts productDetails) as [e|]; [|reflexivity].
  set (R := filter (deliveredAt e) productDetails).
  rewrite getFastestDeliveredProducts_eq.
  pose proof (getEarliestDeliveryDateOfProducts_elem R) as Helem.
  destruct (getEarliestDeliveryDateOfProducts R) as [e'|].
  - destruct Helem as (q & Hq & Hdate).
    apply list_elem_of_filter in Hq as [Hq _].
    unfold deliveredAt in Hq. rewrite Hdate in Hq. apply Is_true_true in Hq.
    apply filter_all. intros p Hp. apply list_elem_of_filter in Hp as [Hp _].
    unfold deliveredAt in *. destruct (deliveryDate p) as [d|]; [|exact Hp].
    apply Is_true_true in Hp. apply Is_true_true.
    rewrite NumberFacts.strict_eq_sym in Hq.
    exact (NumberFacts.strict_eq_trans _ _ _ Hp Hq).
  - symmetry. apply filter_none. intros p Hin Hp.
    assert (p ∈ filter (λ p, DateValue.ToBoolean (deliveryDate p)) R) as Hmem.
    { apply list_elem_of_filter. split; [now apply (deliveredAt_ToBoolean e)|].
      apply list_elem_of_filter. auto. }
    rewrite Helem in Hmem. inversion Hmem.
Qed.

(** With delivery dates that are all valid, [getEarliestDeliveryDateOfProducts]
    returns the date of a listing that is after no other delivery date,
    and [getFastestDeliveredProducts] the listings, in order, whose date is
    at that time, of which there is at least one; with no delivery date at
    all they return [null] and no listing. *)
Theorem earliest_delivery_reducers (productDetails : list Product) :
  validDates productDetails →
  match getEarliestDeliveryDateOfProducts productDetails with
  | Some earliest =>
      (∃ p, p ∈ productDetails ∧ deliveryDate p = Some earliest) ∧
      (∀ p d, p ∈ productDetails → deliveryDate p = Some d →
              Number.le (getTime earliest) (getTime d)) ∧
      getFastestDeliveredProducts productDetails =
        filter (deliveredAt earliest) productDetails ∧
      getFastestDeliveredProducts productDetails ≠ []
  | None =>
      (∀ p, p ∈ productDetails → deliveryDate p = None) ∧
      getFastestDeliveredProducts productDetails = []
  end.
Proof.
  intros Hvalid.
  pose proof (getEarliestDeliveryDateOfProducts_elem productDetails) as Helem.
  pose proof (getFastestDeliveredProducts_eq productDetails) as Heq.
  destruct (getEarliestDeliveryDateOfProducts productDetails) as [e|] eqn:He.
  - split; [exact Helem|].
    split; [intros p d; apply getEarliestDeliveryDateOfProducts_best, He|].
    split; [exact Heq|].
    destruct Helem as (q & Hq & Hdate). rewrite Heq. intros Hnil.
    assert (q ∈ filter (deliveredAt e) productDetails) as Hmem.
    { apply list_elem_of_filter. split; [|exact Hq].
      unfold deliveredAt. rewrite Hdate. apply Is_true_true.
      apply NumberFacts.strict_eq_refl, (Hvalid q e Hq Hdate). }
    rewrite Hnil in Hmem. inversion Hmem.
  - split; [|exact Heq]. intros p Hin.
    destruct (deliveryDate p) as [d|] eqn:Hd; [|reflexivity].
    assert (p ∈ filter (λ p, DateValue.ToBoolean (deliveryDate p)) productDetails) as Hmem.
    { apply list_elem_of_filter. split; [|exact Hin]. rewrite Hd. exact I. }
    rewrite Helem in Hmem. inversion Hmem.
Qed.

Lemma earliest_delivery_reducers_witness :
  validDates [delivered 3; delivered 1; unpriced; delivered 1] ∧
  match getEarliestDeliveryDateOfProducts
          [delivered 3; delivered 1; unpriced; delivered 1] with
  | Some earliest =>
      (∃ p, p ∈ [delivered 3; delivered 1; unpriced; delivered 1] ∧
            deliveryDate p = Some earliest) ∧
      (∀ p d, p ∈ [delivered 3; delivered 1; unpriced; delivered 1] →
              deliveryDate p = Some d → Number.le (getTime earliest) (getTime d)) ∧
      getFastestDeliveredProducts [delivered 3; delivered 1; unpriced; delivered 1] =
        filter (deliveredAt earliest) [delivered 3; delivered 1; unpriced; delivered 1] ∧
      getFastestDeliveredProducts [delivered 3; delivered 1; unpriced; delivered 1] ≠ []
  | None =>
      (∀ p, p ∈ [delivered 3; delivered 1; unpriced; delivered 1] →
            deliveryDate p = None) ∧
      getFastestDeliveredProducts [delivered 3; delivered 1; unpriced; delivered 1] = []
  end.
Proof.
  assert (validDates [delivered 3; delivered 1; unpriced; delivered 1]) as H.
  { intros p d Hin Hd.
    repeat (apply elem_of_cons in Hin as [->|Hin];
            [first [discriminate Hd | now injection Hd as <-]|]).
    inversion Hin. }
  split; [exact H|].
  exact (earliest_delivery_reducers _ H).
Defined.

(** ** Criteria given twice, and the rating given last *)

Lemma Optimizations_idem type optimization l :
  Optimizations !! type = Some optimization →
  optimization (optimization l) = optimization l.
Proof.
  intros H. apply Optimizations_lookup in H as [[_ ->]|[[_ ->]|[_ ->]]].
  - apply getProductsOfLowestPrice_idem.
  - apply getFastestDeliveredProducts_idem.
  - apply getProductsOfHighestRating_idem.
Qed.

Lemma narrow_idem type optimization l :
  Optimizations !! type = Some optimization →
  narrow optimization (narrow optimization l) = narrow optimization l.
Proof.
  intros H. unfold narrow at 2 3.
  destruct (length (optimization l) =? 0)%nat eqn:Hlen.
  - unfold narrow. now rewrite Hlen.
  - unfold narrow. now rewrite (Optimizations_idem _ _ _ H), Hlen.
Qed.

(** A criterion given twice in a row counts once. *)
Theorem criterion_twice
    (productDetails : list Product) (before rest : list string) (type : string) :
  getProductOptimizedFor productDetails (before ++ type :: type :: rest) =
  getProductOptimizedFor productDetails (before ++ type :: rest).
Proof.
  unfold getProductOptimizedFor. rewrite !cascade_app.
  destruct (cascade productDetails before) as [cands|]; [|reflexivity].
  change (match cascade cands (type :: type :: rest) with
          | Some l => first (tieBreak l) | None => null end =
          match cascade cands (type :: rest) with
          | Some l => first (tieBreak l) | None => null end).
  destruct (recognized_dec type) as [Hr|Hr].
  - destruct (recognized_lookup _ Hr) as [f Hf].
    now rewrite !(cascade_cons_recognized _ _ _ _ Hf), (narrow_idem _ _ _ Hf).
  - now rewrite !cascade_cons_unrecognized.
Qed.

Lemma tieBreak_narrow l :
  tieBreak l =
  if (1 <? length l)%nat then narrow getProductsOfHighestRating l else l.
Proof.
  unfold tieBreak, narrow. destruct (1 <? length l)%nat; [|reflexivity].
  now destruct (length (getProductsOfHighestRating l) =? 0)%nat.
Qed.

Lemma tieBreak_after_rating l :
  tieBreak (narrow getProductsOfHighestRating l) = narrow getProductsOfHighestRating l.
Proof.
  rewrite tieBreak_narrow. destruct (1 <? length _)%nat; [|reflexivity].
  now apply (narrow_idem "RATING").
Qed.

(** When [RATING] is the last criterion the narrowing after the loop
    changes nothing: the first candidate that the loop leaves is
    returned. *)
Theorem rating_last_no_tie_break
    (productDetails cands : list Product) (before : list string) :
  cascade productDetails (before ++ ["RATING"]) = Some cands →
  tieBreak cands = cands ∧
  getProductOptimizedFor productDetails (before ++ ["RATING"]) = first cands.
Proof.
  intros Hc.
  assert (tieBreak cands = cands) as Ht.
  { rewrite cascade_app in Hc.
    destruct (cascade productDetails before) as [l|]; [|discriminate].
    change (cascade l ["RATING"] = Some cands) in Hc.
    rewrite (cascade_cons_recognized _ "RATING" _ getProductsOfHighestRating) in Hc
      by reflexivity.
    injection Hc as <-. apply tieBreak_after_rating. }
  split; [exact Ht|].
  unfold getProductOptimizedFor. now rewrite Hc, Ht.
Qed.

Lemma rating_last_no_tie_break_witness :
  cascade [pricedAndRated 10 4; pricedAndRated 10 5; pricedAndRated 10 5]
          (["PRICE"] ++ ["RATING"])
    = Some [pricedAndRated 10 5; pricedAndRated 10 5] ∧
  tieBreak [pricedAndRated 10 5; pricedAndRated 10 5]
    = [pricedAndRated 10 5; pricedAndRated 10 5] ∧
  getProductOptimizedFor [pricedAndRated 10 4; pricedAndRated 10 5; pricedAndRated 10 5]
                         (["PRICE"] ++ ["RATING"])
    = first [pricedAndRated 10 5; pricedAndRated 10 5].
Proof.
  assert (cascade [pricedAndRated 10 4; pricedAndRated 10 5; pricedAndRated 10 5]
                  (["PRICE"] ++ ["RATING"])
          = Some [pricedAndRated 10 5; pricedAndRated 10 5]) as H
    by (vm_compute; reflexivity).
  split; [exact H|].
  exact (rating_last_no_tie_break _ _ _ H).
Defined.

(** ** The first criterion decides *)

Lemma cascade_recognized optimizedProducts optimizationTypes :
  (∀ type, type ∈ optimizationTypes → recognized type) →
  ∃ cands, cascade optimizedProducts optimizationTypes = Some cands.
Proof.
  intros Hall.
  destruct (cascade optimizedProducts optimizationTypes) as [cands|] eqn:Hc; [eauto|].
  apply cascade_None in Hc as (type & Hin & Hnot). exfalso. exact (Hnot (Hall _ Hin)).
Qed.

Lemma getProductOptimizedFor_product productDetails optimizationTypes :
  (∀ type, type ∈ optimizationTypes → recognized type) →
  productDetails ≠ [] →
  ∃ cands p,
    cascade productDetails optimizationTypes = Some cands ∧
    getProductOptimizedFor productDetails optimizationTypes = product p ∧
    p ∈ cands.
Proof.
  intros Hall Hne.
  destruct (cascade_recognized productDetails _ Hall) as [cands Hc].
  pose proof (cascade_Some _ _ _ Hc) as [_ Hcne].
  pose proof (tieBreak_nonempty cands (Hcne Hne)) as Htne.
  pose proof (tieBreak_sublist cands) as Hsub.
  unfold getProductOptimizedFor. rewrite Hc. unfold first.
  destruct (tieBreak cands) as [|p l]; [contradiction|].
  exists cands, p. split; [reflexivity|]. split; [reflexivity|].
  eapply sublist_subseteq; [exact Hsub | left].
Qed.

Lemma cascade_first_criterion productDetails type rest optimization :
  Optimizations !! type = Some optimization →
  (∀ t, t ∈ rest → recognized t) →
  optimization productDetails ≠ [] →
  ∃ p, getProductOptimizedFor productDetails (type :: rest) = product p ∧
       p ∈ optimization productDetails.
Proof.
  intros Hf Hall Hne.
  assert (narrow optimization productDetails = optimization productDetails) as Hnarrow.
  { unfold narrow. destruct (optimization productDetails) as [|q l]; [contradiction|].
    reflexivity. }
  destruct (getProductOptimizedFor_product (optimization productDetails) rest Hall Hne)
    as (cands & p & Hc & Hp & Hin).
  exists p. split.
  - unfold getProductOptimizedFor in *.
    now rewrite (cascade_cons_recognized _ _ _ _ Hf), Hnarrow.
  - apply cascade_Some in Hc as [Hsub _].
    eapply sublist_subseteq; [exact Hsub | exact Hin].
Qed.

(** When the first criterion finds listings at its extremum among the
    listings given, and the criteria after it are recognized, the listing
    returned is one of those: the later criteria and the last narrowing
    only choose among them. *)
Theorem first_criterion_decides
    (productDetails : list Product) (type : string) (rest : list string)
    (optimization : list Product → list Product) :
  Optimizations !! type = Some optimization →
  (∀ t, t ∈ rest → recognized t) →
  optimization productDetails ≠ [] →
  ∃ p, getProductOptimizedFor productDetails (type :: rest) = product p ∧
       p ∈ optimization productDetails.
Proof. apply cascade_first_criterion. Qed.

Lemma first_criterion_decides_witness :
  Optimizations !! "PRICE" = Some getProductsOfLowestPrice ∧
  (∀ t, t ∈ ["RATING"] → recognized t) ∧
  getProductsOfLowestPrice [pricedAndRated 10 4; pricedAndRated 8 1; rated 5] ≠ [] ∧
  ∃ p, getProductOptimizedFor [pricedAndRated 10 4; pricedAndRated 8 1; rated 5]
                              ("PRICE" :: ["RATING"]) = product p ∧
       p ∈ getProductsOfLowestPrice [pricedAndRated 10 4; pricedAndRated 8 1; rated 5].
Proof.
  assert (Optimizations !! "PRICE" = Some getProductsOfLowestPrice) as H1 by reflexivity.
  assert (∀ t, t ∈ ["RATING"] → recognized t) as H2.
  { intros t Hin. apply list_elem_of_singleton in Hin as ->.
    apply recognized_iff. auto. }
  assert (getProductsOfLowestPrice [pricedAndRated 10 4; pricedAndRated 8 1; rated 5] ≠ [])
    as H3 by (vm_compute; discriminate).
  split; [exact H1|]. split; [exact H2|]. split; [exact H3|].
  exact (first_criterion_decides _ _ _ _ H1 H2 H3).
Defined.

(** ** What the three calls of [main] choose *)

Lemma recognized_two a b :
  recognized a → recognized b → ∀ t, t ∈ [a; b] → recognized t.
Proof.
  intros Ha Hb t Hin.
  apply elem_of_cons in Hin as [->|Hin]; [exact Ha|].
  apply list_elem_of_singleton in Hin as ->. exact Hb.
Qed.

Lemma recognized_PRICE : recognized "PRICE".
Proof. apply recognized_iff. auto. Qed.

Lemma recognized_DELIVERY_DATE : recognized "DELIVERY_DATE".
Proof. apply recognized_iff. auto. Qed.

Lemma recognized_RATING : recognized "RATING".
Proof. apply recognized_iff. auto. Qed.

(** What the three orders of criteria of [main] return.  With [PRICE]
    first and a listing that has a price, a listing whose price is above
    no price; with [RATING] first and a listing that has a rating, a
    listing whose rating is below no rating; with [DELIVERY_DATE] first,
    valid dates and a listing that has one, a listing whose date is after
    no date.  A price or rating that is zero or not a number counts as
    none. *)
Theorem main_orders_optimal (productDetails : list Product) :
  ((∃ q n, q ∈ productDetails ∧ hasPrice q n) →
   ∃ p lowest,
     getProductOptimizedFor productDetails ["PRICE"; "RATING"; "DELIVERY_DATE"]
       = product p ∧
     p ∈ productDetails ∧ hasPrice p lowest ∧
     ∀ q n, q ∈ productDetails → hasPrice q n → Number.le lowest n) ∧
  ((∃ q r, q ∈ productDetails ∧ hasRating q r) →
   ∃ p highest,
     getProductOptimizedFor productDetails ["RATING"; "PRICE"; "DELIVERY_DATE"]
       = product p ∧
     p ∈ productDetails ∧ hasRating p highest ∧
     ∀ q r, q ∈ productDetails → hasRating q r → Number.le r highest) ∧
  (validDates productDetails →
   (∃ q d, q ∈ productDetails ∧ deliveryDate q = Some d) →
   ∃ p earliest,
     getProductOptimizedFor productDetails ["DELIVERY_DATE"; "PRICE"; "RATING"]
       = product p ∧
     p ∈ productDetails ∧ deliveryDate p = Some earliest ∧
     ∀ q d, q ∈ productDetails → deliveryDate q = Some d →
            Number.le (getTime earliest) (getTime d)).
Proof.
  split; [|split].
  - intros (q0 & n0 & Hq0 & Hn0).
    pose proof (getLowestPriceOfProducts_eq productDetails) as Heq.
    pose proof (extremumOf_elem price Value.gt Value_gt_irrefl productDetails) as Helem.
    destruct (extremumOf price Value.gt productDetails) as [lowest|] eqn:Hext.
    2:{ exfalso.
        exact (extremumOf_None price Value.gt Value_gt_irrefl _ _ _ Hext Hq0 Hn0). }
    assert (getProductsOfLowestPrice productDetails ≠ []) as Hne.
    { rewrite getProductsOfLowestPrice_atExtremum,
        (atExtremum_Some price Value.gt Value_gt_irrefl _ _ Hext).
      destruct Helem as (q & Hq & Hpq). intros Hnil.
      assert (q ∈ filter (λ p, Value.strict_eq (price p) (Some lowest)) productDetails)
        as Hmem.
      { apply list_elem_of_filter. split; [|exact Hq].
        destruct Hpq as (-> & Hnan & _). apply Is_true_true.
        now apply NumberFacts.strict_eq_refl. }
      rewrite Hnil in Hmem. inversion Hmem. }
    destruct (cascade_first_criterion productDetails "PRICE" ["RATING"; "DELIVERY_DATE"]
                getProductsOfLowestPrice eq_refl
                (recognized_two _ _ recognized_RATING recognized_DELIVERY_DATE) Hne)
      as (p & Hp & Hin).
    rewrite getProductsOfLowestPrice_atExtremum,
      (atExtremum_Some price Value.gt Value_gt_irrefl _ _ Hext) in Hin.
    apply list_elem_of_filter in Hin as [Hstrict Hin].
    pose proof (extremumOf_ToBoolean price Value.gt Value_gt_irrefl _ _ Hext) as Htrue.
    destruct (price p) as [x|] eqn:Hx; [|contradiction].
    apply Is_true_true in Hstrict. simpl in Hstrict.
    exists p, x. split; [exact Hp|]. split; [exact Hin|]. split.
    + apply ToBoolean_present_Some; [exact Hx|].
      exact (NumberFacts.strict_eq_ToBoolean _ _ Hstrict Htrue).
    + intros q n Hq Hn. unfold Number.le.
      rewrite (NumberFacts.strict_eq_lt_r _ _ _ Hstrict).
      exact (extremumOf_best price Value.gt Value_gt_irrefl Value_gt_step
               _ _ _ _ Hext Hq Hn).
  - intros (q0 & r0 & Hq0 & Hr0).
    pose proof (extremumOf_elem rating Value.lt Value_lt_irrefl productDetails) as Helem.
    destruct (extremumOf rating Value.lt productDetails) as [highest|] eqn:Hext.
    2:{ exfalso.
        exact (extremumOf_None rating Value.lt Value_lt_irrefl _ _ _ Hext Hq0 Hr0). }
    assert (getProductsOfHighestRating productDetails ≠ []) as Hne.
    { rewrite getProductsOfHighestRating_atExtremum,
        (atExtremum_Some rating Value.lt Value_lt_irrefl _ _ Hext).
      destruct Helem as (q & Hq & Hpq). intros Hnil.
      assert (q ∈ filter (λ p, Value.strict_eq (rating p) (Some highest)) productDetails)
        as Hmem.
      { apply list_elem_of_filter. split; [|exact Hq].
        destruct Hpq as (-> & Hnan & _). apply Is_true_true.
        now apply NumberFacts.strict_eq_refl. }
      rewrite Hnil in Hmem. inversion Hmem. }
    destruct (cascade_first_criterion productDetails "RATING" ["PRICE"; "DELIVERY_DATE"]
                getProductsOfHighestRating eq_refl
                (recognized_two _ _ recognized_PRICE recognized_DELIVERY_DATE) Hne)
      as (p & Hp & Hin).
    rewrite getProductsOfHighestRating_atExtremum,
      (atExtremum_Some rating Value.lt Value_lt_irrefl _ _ Hext) in Hin.
    apply list_elem_of_filter in Hin as [Hstrict Hin].
    pose proof (extremumOf_ToBoolean rating Value.lt Value_lt_irrefl _ _ Hext) as Htrue.
    destruct (rating p) as [x|] eqn:Hx; [|contradiction].
    apply Is_true_true in Hstrict. simpl in Hstrict.
    exists p, x. split; [exact Hp|]. split; [exact Hin|]. split.
    + apply ToBoolean_present_Some; [exact Hx|].
      exact (NumberFacts.strict_eq_ToBoolean _ _ Hstrict Htrue).
    + intros q r Hq Hr. unfold Number.le.
      rewrite (NumberFacts.strict_eq_lt_l _ _ _ Hstrict).
      exact (extremumOf_best rating Value.lt Value_lt_irrefl Value_lt_step
               _ _ _ _ Hext Hq Hr).
  - intros Hvalid (q0 & d0 & Hq0 & Hd0).
    pose proof (getEarliestDeliveryDateOfProducts_elem productDetails) as Helem.
    pose proof (getFastestDeliveredProducts_eq productDetails) as Heq.
    destruct (getEarliestDeliveryDateOfProducts productDetails) as [e|] eqn:He.
    2:{ exfalso.
        assert (q0 ∈ filter (λ p, DateValue.ToBoolean (deliveryDate p)) productDetails)
          as Hmem by (apply list_elem_of_filter; split; [now rewrite Hd0 | exact Hq0]).
        rewrite Helem in Hmem. inversion Hmem. }
    assert (getFastestDeliveredProducts productDetails ≠ []) as Hne.
    { rewrite Heq. destruct Helem as (q & Hq & Hdate). intros Hnil.
      assert (q ∈ filter (deliveredAt e) productDetails) as Hmem.
      { apply list_elem_of_filter. split; [|exact Hq].
        unfold deliveredAt. rewrite Hdate. apply Is_true_true.
        apply NumberFacts.strict_eq_refl, (Hvalid q e Hq Hdate). }
      rewrite Hnil in Hmem. inversion Hmem. }
    destruct (cascade_first_criterion productDetails "DELIVERY_DATE" ["PRICE"; "RATING"]
                getFastestDeliveredProducts eq_refl
                (recognized_two _ _ recognized_PRICE recognized_RATING) Hne)
      as (p & Hp & Hin).
    rewrite Heq in Hin. apply list_elem_of_filter in Hin as [Hat Hin].
    unfold deliveredAt in Hat. destruct (deliveryDate p) as [x|] eqn:Hx; [|contradiction].
    apply Is_true_true in Hat.
    exists p, x. split; [exact Hp|]. split; [exact Hin|]. split; [exact Hx|].
    intros q d Hq Hd. unfold Number.le.
    rewrite (NumberFacts.strict_eq_lt_r _ _ _ Hat).
    exact (getEarliestDeliveryDateOfProducts_best _ _ _ _ He Hq Hd).
Qed.

Lemma main_orders_optimal_witness :
  (∃ p lowest,
     getProductOptimizedFor threeListings ["PRICE"; "RATING"; "DELIVERY_DATE"]
       = product p ∧
     p ∈ threeListings ∧ hasPrice p lowest ∧
     ∀ q n, q ∈ threeListings → hasPrice q n → Number.le lowest n) ∧
  (∃ p highest,
     getProductOptimizedFor threeListings ["RATING"; "PRICE"; "DELIVERY_DATE"]
       = product p ∧
     p ∈ threeListings ∧ hasRating p highest ∧
     ∀ q r, q ∈ threeListings → hasRating q r → Number.le r highest) ∧
  (∃ p earliest,
     getProductOptimizedFor threeListings ["DELIVERY_DATE"; "PRICE"; "RATING"]
       = product p ∧
     p ∈ threeListings ∧ deliveryDate p = Some earliest ∧
     ∀ q d, q ∈ threeListings → deliveryDate q = Some d →
            Number.le (getTime earliest) (getTime d)).
Proof.
  assert (pricedAndRated 10 4 ∈ threeListings) as Hfirst by left.
  assert (delivered 3 ∈ threeListings) as Hsecond by (right; left).
  assert (hasPrice (pricedAndRated 10 4) (Number.of_Z 10)) as Hprice by (repeat split).
  assert (hasRating (pricedAndRated 10 4) (Number.of_Z 4)) as Hrating by (repeat split).
  assert (validDates threeListings) as Hvalid.
  { intros p d Hin Hd.
    repeat (apply elem_of_cons in Hin as [->|Hin];
            [first [discriminate Hd | now injection Hd as <-]|]).
    inversion Hin. }
  destruct (main_orders_optimal threeListings) as (H1 & H2 & H3).
  split; [|split].
  - apply H1. exists (pricedAndRated 10 4), (Number.of_Z 10). auto.
  - apply H2. exists (pricedAndRated 10 4), (Number.of_Z 4). auto.
  - apply H3; [exact Hvalid|].
    exists (delivered 3), (mkDate (Number.of_Z 3)). auto.
Defined.

(** A listing alone is the one chosen, whatever the recognized criteria. *)
Theorem single_listing_chosen (p : Product) (optimizationTypes : list string) :
  (∀ type, type ∈ optimizationTypes → recognized type) →
  getProductOptimizedFor [p] optimizationTypes = product p.
Proof.
  intros Hall.
  destruct (getProductOptimizedFor_product [p] optimizationTypes Hall)
    as (cands & q & Hc & Hq & Hin); [discriminate|].
  apply cascade_Some in Hc as [Hsub _].
  assert (q ∈ [p]) as Hmem by (eapply sublist_subseteq; eassumption).
  apply list_elem_of_singleton in Hmem as ->. exact Hq.
Qed.

Lemma single_listing_chosen_witness :
  (∀ type, type ∈ ["RATING"; "PRICE"] → recognized type) ∧
  getProductOptimizedFor [unpriced] ["RATING"; "PRICE"] = product unpriced.
Proof.
  pose proof (recognized_two _ _ recognized_RATING recognized_PRICE) as H.
  split; [exact H|].
  exact (single_listing_chosen unpriced _ H).
Defined.

(** ** The page and the listings built from it *)

Lemma elem_of_getProductElementsFromPage document element :
  element ∈ getProductElementsFromPage document ↔
  element ∈ document ∧
  ∃ productId, dataAsin element = Some productId ∧ productId ≠ EmptyString.
Proof.
  unfold getProductElementsFromPage. rewrite list_elem_of_filter. split.
  - intros [Hid Hin]. split; [exact Hin|].
    destruct (dataAsin element) as [productId|]; [|contradiction].
    exists productId. split; [reflexivity|]. now destruct productId.
  - intros [Hin (productId & -> & Hne)]. split; [|exact Hin].
    now destruct productId.
Qed.

Lemma getProductUrlFromElement_Some productElement u :
  getProductUrlFromElement productElement = Some u ↔
  ∃ productId,
    dataAsin productElement = Some productId ∧
    productId ≠ EmptyString ∧
    u = "https://www.amazon.com/dp/" +:+ productId.
Proof.
  unfold getProductUrlFromElement. split.
  - destruct (dataAsin productElement) as [productId|]; [|discriminate].
    destruct productId as [|c productId]; [discriminate|].
    intros [= <-]. eexists. split; [reflexivity|]. split; [discriminate | reflexivity].
  - intros (productId & -> & Hne & ->). now destruct productId.
Qed.

Lemma elem_of_getProductDetailsFromElements fullYear newDate productElements p :
  p ∈ getProductDetailsFromElements fullYear newDate productElements →
  ∃ element,
    element ∈ productElements ∧
    url p = getProductUrlFromElement element ∧
    price p = getPriceFromElement element ∧
    deliveryDate p = getDeliveryDateFromElement fullYear newDate element ∧
    rating p = getRatingFromElement element ∧
    ratingCount p = getRatingCountFromElement element.
Proof.
  unfold getProductDetailsFromElements. intros Hin.
  apply list_elem_of_fmap in Hin as (element & -> & Hin).
  exists element. simpl. auto 10.
Qed.

Lemma urlOf_pageUrl fullYear newDate document optimizationTypes :
  (∀ type, type ∈ optimizationTypes → recognized type) →
  getProductElementsFromPage document ≠ [] →
  pageUrl document
    (urlOf (getProductOptimizedFor
              (getProductDetailsFromElements fullYear newDate
                 (getProductElementsFromPage document))
              optimizationTypes)).
Proof.
  intros Hall Hne.
  set (products := getProductDetailsFromElements fullYear newDate
                     (getProductElementsFromPage document)).
  assert (products ≠ []) as Hproducts.
  { unfold products, getProductDetailsFromElements.
    destruct (getProductElementsFromPage document); [contradiction | discriminate]. }
  destruct (getProductOptimizedFor_product products optimizationTypes Hall Hproducts)
    as (cands & p & Hc & Hp & Hin).
  apply cascade_Some in Hc as [Hsub _].
  assert (p ∈ products) as Hmem by (eapply sublist_subseteq; eassumption).
  apply elem_of_getProductDetailsFromElements in Hmem as (element & He & Hurl & _).
  apply elem_of_getProductElementsFromPage in He as [He (productId & Hid & Hidne)].
  rewrite Hp. simpl. exists element, productId.
  split; [exact He|]. split; [exact Hid|]. split; [exact Hidne|].
  rewrite Hurl. do 2 f_equal.
  unfold getProductUrlFromElement. rewrite Hid. now destruct productId.
Qed.

(** What [main] returns for a document.  Without a product element, an
    element that has a [data-asin] that is not empty, the three addresses
    are [undefined].  With one, each of the three is an address, never
    [null] or [undefined], made of the [data-asin] of a product element
    of the document. *)
Theorem main_urls (fullYear : Z) (newDate : string → Date) (document : list Element) :
  (getProductElementsFromPage document = [] →
   main fullYear newDate document =
     {| fastestDelivery := None; cheapest := None; highestRating := None |}) ∧
  (getProductElementsFromPage document ≠ [] →
   pageUrl document (fastestDelivery (main fullYear newDate document)) ∧
   pageUrl document (cheapest (main fullYear newDate document)) ∧
   pageUrl document (highestRating (main fullYear newDate document))).
Proof.
  split.
  - intros Hnil. unfold main. rewrite Hnil. reflexivity.
  - intros Hne. unfold main. cbn [fastestDelivery cheapest highestRating].
    repeat split; apply urlOf_pageUrl; try exact Hne;
      intros type Hin;
      repeat (apply elem_of_cons in Hin as [->|Hin];
              [first [exact recognized_PRICE | exact recognized_RATING
                     | exact recognized_DELIVERY_DATE]|]);
      inversion Hin.
Qed.

Lemma main_urls_witness :
  getProductElementsFromPage samplePage ≠ [] ∧
  pageUrl samplePage (fastestDelivery (main 2021 (SampleEngine.newDate true) samplePage)) ∧
  pageUrl samplePage (cheapest (main 2021 (SampleEngine.newDate true) samplePage)) ∧
  pageUrl samplePage (highestRating (main 2021 (SampleEngine.newDate true) samplePage)).
Proof.
  assert (getProductElementsFromPage samplePage ≠ []) as Hne by (vm_compute; discriminate).
  split; [exact Hne|].
  exact (proj2 (main_urls 2021 (SampleEngine.newDate true) samplePage) Hne).
Defined.

(** ** Addresses *)

(** The address of a product is made of its [data-asin] alone, and two
    elements with the same address have the same [data-asin]. *)
Theorem getProductUrlFromElement_reversible (element1 element2 : Element) (u : string) :
  getProductUrlFromElement element1 = Some u →
  getProductUrlFromElement element2 = Some u →
  dataAsin element1 = dataAsin element2 ∧
  u = "https://www.amazon.com/dp/" +:+ default EmptyString (dataAsin element1).
Proof.
  intros H1 H2.
  apply getProductUrlFromElement_Some in H1 as (id1 & Hid1 & _ & ->).
  apply getProductUrlFromElement_Some in H2 as (id2 & Hid2 & _ & Heq).
  apply (inj (String.app _)) in Heq as <-.
  rewrite Hid1, Hid2. auto.
Qed.

Lemma getProductUrlFromElement_reversible_witness :
  getProductUrlFromElement (mkElement (Some "B01") None None None None [])
    = Some "https://www.amazon.com/dp/B01" ∧
  getProductUrlFromElement (mkElement (Some "B01") (Some "5") (Some "00") None None [])
    = Some "https://www.amazon.com/dp/B01" ∧
  dataAsin (mkElement (Some "B01") None None None None [])
    = dataAsin (mkElement (Some "B01") (Some "5") (Some "00") None None []).
Proof.
  split; [reflexivity|]. split; [reflexivity|].
  exact (proj1 (getProductUrlFromElement_reversible
                  (mkElement (Some "B01") None None None None [])
                  (mkElement (Some "B01") (Some "5") (Some "00") None None [])
                  "https://www.amazon.com/dp/B01" eq_refl eq_refl)).
Defined.

(** ** Ratings *)

Module RatingFacts.
Import StrFacts RegExpFacts.

Lemma digit_cases c :
  Char.between "0" "9" c = true →
  c = "0"%char ∨ c = "1"%char ∨ c = "2"%char ∨ c = "3"%char ∨ c = "4"%char ∨
  c = "5"%char ∨ c = "6"%char ∨ c = "7"%char ∨ c = "8"%char ∨ c = "9"%char.
Proof.
  destruct c as [[] [] [] [] [] [] [] []]; intros H; try discriminate H;
    repeat match goal with |- _ ∨ _ => first [left; reflexivity | right] end;
    reflexivity.
Qed.

(** The texts that the pattern of the rating matches. *)
Lemma rating_basicPattern_lang s :
  lang Rating.basicPattern s ↔
  (∃ d, Char.isDigit d = true ∧ s = String d " out of 5 stars") ∨
  (∃ d f, Char.isDigit d = true ∧ Char.isDigit f = true ∧
          s = String d (String "." (String f " out of 5 stars"))).
Proof.
  unfold Rating.basicPattern. cbn [lang RegExp.Digit]. split.
  - intros (s1 & s2 & -> & H1 & H2). apply DeliveryDateFacts.lang_Lit in H2 as ->.
    destruct H1 as [(a & b & -> & (d & -> & Hd) & (c & e & -> & -> & (f & -> & Hf)))
                   |(d & -> & Hd)].
    + right. exists d, f. auto.
    + left. exists d. auto.
  - intros [(d & Hd & ->)|(d & f & Hd & Hf & ->)].
    + exists (String d EmptyString), " out of 5 stars".
      split; [reflexivity|]. split; [right; eauto|].
      now apply DeliveryDateFacts.lang_Lit.
    + exists (String d (String "." (String f EmptyString))), " out of 5 stars".
      split; [reflexivity|]. split; [|now apply DeliveryDateFacts.lang_Lit].
      left. exists (String d EmptyString), (String "." (String f EmptyString)).
      split; [reflexivity|]. split; [eauto|].
      exists (String "." EmptyString), (String f EmptyString). eauto 10.
Qed.

Ltac each_digit H :=
  apply digit_cases in H;
  repeat match type of H with _ ∨ _ => destruct H as [H|H] end; subst.

(** What [getRatingFromElement] returns, by the text of the element. *)
Lemma getRatingFromElement_cases productElement r :
  getRatingFromElement productElement = Some r ↔
  (∃ d, Char.isDigit d = true ∧
        iconAlt productElement = Some (String d " out of 5 stars") ∧
        r = Number.of_Z (Char.digitValue d)) ∨
  (∃ d f, Char.isDigit d = true ∧ Char.isDigit f = true ∧
          iconAlt productElement =
            Some (String d (String "." (String f " out of 5 stars"))) ∧
          r = decimal false (10 * Char.digitValue d + Char.digitValue f) (-1)).
Proof.
  unfold getRatingFromElement. split.
  - destruct (iconAlt productElement) as [s|]; [|discriminate].
    destruct (Str.ToBoolean s); [|discriminate]. cbn [negb].
    destruct (RegExp.test Rating.basicPattern s) eqn:Htest; [|discriminate].
    cbn [negb]. apply test_spec, rating_basicPattern_lang in Htest.
    destruct Htest as [(d & Hd & ->)|(d & f & Hd & Hf & ->)]; intros H.
    + left. exists d. split; [exact Hd|]. split; [reflexivity|].
      each_digit Hd; vm_compute in H; injection H as <-; reflexivity.
    + right. exists d, f. split; [exact Hd|]. split; [exact Hf|]. split; [reflexivity|].
      each_digit Hd; each_digit Hf; vm_compute in H; injection H as <-; reflexivity.
  - intros [(d & Hd & -> & ->)|(d & f & Hd & Hf & -> & ->)].
    + each_digit Hd; reflexivity.
    + each_digit Hd; each_digit Hf; reflexivity.
Qed.

End RatingFacts.

(** [getRatingFromElement] returns a rating for the texts [D out of 5
    stars] and [D.F out of 5 stars], [D] and [F] being one digit each, and
    for no other text: the rating is [D], or [D] and [F] tenths. *)
Theorem getRatingFromElement_spec (productElement : Element) (r : number) :
  getRatingFromElement productElement = Some r ↔
  (∃ d, Char.isDigit d = true ∧
        iconAlt productElement = Some (String d " out of 5 stars") ∧
        r = Number.of_Z (Char.digitValue d)) ∨
  (∃ d f, Char.isDigit d = true ∧ Char.isDigit f = true ∧
          iconAlt productElement =
            Some (String d (String "." (String f " out of 5 stars"))) ∧
          r = decimal false (10 * Char.digitValue d + Char.digitValue f) (-1)).
Proof. apply RatingFacts.getRatingFromElement_cases. Qed.

(** A rating that [getRatingFromElement] returns is a number from 0 to
    9.9, the Number value of [9.9]; the pattern, which reads [out of 5
    stars], does not keep it to 5: the text [9.9 out of 5 stars] gives
    9.9. *)
Theorem getRatingFromElement_range (productElement : Element) (r : number) :
  getRatingFromElement productElement = Some r →
  Number.isNaN r = false ∧
  Number.le (Number.of_Z 0) r ∧
  Number.le r (decimal false 99 (-1)) ∧
  getRatingFromElement (mkElement None None None (Some "9.9 out of 5 stars") None [])
    = Some (decimal false 99 (-1)).
Proof.
  intros H. apply RatingFacts.getRatingFromElement_cases in H.
  destruct H as [(d & Hd & _ & ->)|(d & f & Hd & Hf & _ & ->)].
  - RatingFacts.each_digit Hd; vm_compute; repeat split.
  - RatingFacts.each_digit Hd; RatingFacts.each_digit Hf; vm_compute; repeat split.
Qed.

Lemma getRatingFromElement_range_witness :
  getRatingFromElement (mkElement None None None (Some "4.5 out of 5 stars") None [])
    = Some (Finite (9 # 2)) ∧
  Number.le (Number.of_Z 0) (Finite (9 # 2)) ∧
  Number.le (Finite (9 # 2)) (decimal false 99 (-1)).
Proof.
  assert (getRatingFromElement
            (mkElement None None None (Some "4.5 out of 5 stars") None [])
          = Some (Finite (9 # 2))) as H by reflexivity.
  split; [exact H|].
  pose proof (getRatingFromElement_range _ _ H) as (_ & H0 & H99 & _).
  split; [exact H0 | exact H99].
Defined.

(** ** Rating counts *)

Module ParseIntFacts.
Import StrFacts.

Lemma hexValue_digit c :
  Char.isDigit c = true →
  Char.hexValue c = Some (Char.digitValue c) ∧ (Char.digitValue c <? 10) = true.
Proof.
  intros H. unfold Char.hexValue. rewrite H. split; [reflexivity|].
  RatingFacts.each_digit H; reflexivity.
Qed.

Lemma radixValue_digits acc s :
  Str.allDigits s → radixValue 10 (Some acc) s = Some (Str.digitsValue acc s).
Proof.
  revert acc. induction s as [|c s IH]; intros acc Hs; [reflexivity|].
  apply allDigits_cons in Hs as [Hc Hs].
  destruct (hexValue_digit c Hc) as [Hhex Hlt].
  cbn [radixValue Str.digitsValue]. rewrite Hhex, Hlt. apply IH, Hs.
Qed.

Lemma radixValue_digits_None s :
  Str.allDigits s → s ≠ EmptyString →
  radixValue 10 None s = Some (Str.digitsValue 0 s).
Proof.
  destruct s as [|c s]; [contradiction|]. intros Hs _.
  apply allDigits_cons in Hs as [Hc Hs].
  destruct (hexValue_digit c Hc) as [Hhex Hlt].
  cbn [radixValue Str.digitsValue]. rewrite Hhex, Hlt. apply radixValue_digits, Hs.
Qed.

(** [parseInt] reads a string of digits as the double nearest to the
    integer they write, in base 10. *)
Lemma parseInt_allDigits s :
  Str.allDigits s → s ≠ EmptyString →
  parseInt s = Double.round (inject_Z (Str.digitsValue 0 s)).
Proof.
  intros Hs Hne. pose proof (radixValue_digits_None s Hs Hne) as Hvalue.
  destruct s as [|c s]; [contradiction|].
  pose proof Hs as Hc. apply allDigits_cons in Hc as [Hc Hs'].
  destruct (digit_facts c Hc) as (Hws & _ & Hsign).
  unfold parseInt.
  assert (Str.trimStart (String c s) = String c s) as ->
    by (cbn [Str.trimStart]; now rewrite Hws).
  rewrite Hsign.
  assert (match String c s with
          | String "0" (String "x" s') | String "0" (String "X" s') =>
              radixValue 16 None s'
          | _ => radixValue 10 None (String c s)
          end = radixValue 10 None (String c s)) as ->.
  { destruct s as [|c2 s]; [RatingFacts.each_digit Hc; reflexivity|].
    apply allDigits_cons in Hs' as [Hc2 _].
    RatingFacts.each_digit Hc; try reflexivity.
    RatingFacts.each_digit Hc2; reflexivity. }
  rewrite Hvalue. reflexivity.
Qed.

Lemma allDigits_remove_comma text :
  Str.all (λ c, Char.isDigit c || Ascii.eqb c ",") text = true →
  Str.allDigits (Str.remove "," text).
Proof.
  induction text as [|c text IH]; [reflexivity|].
  cbn [Str.all Str.remove]. rewrite andb_true_iff. intros [Hc Htext].
  destruct (Ascii.eqb c ",") eqn:Hcomma; [now apply IH|].
  rewrite orb_false_r in Hc. apply allDigits_cons. auto.
Qed.

End ParseIntFacts.

(** For a text of digits and commas, with one digit at least,
    [getRatingCountFromElement] returns the Number value for the integer
    that the digits write when the commas are left out, wherever the
    commas are: below 2^53 that integer itself, and from there on the
    double nearest to it, so that [9,007,199,254,740,993] gives
    9007199254740992. *)
Theorem getRatingCountFromElement_digits (productElement : Element) (text : string) :
  underlineText productElement = Some text →
  Str.all (λ c, Char.isDigit c || Ascii.eqb c ",") text = true →
  Str.remove "," text ≠ EmptyString →
  getRatingCountFromElement productElement =
    Some (Double.round (inject_Z (Str.digitsValue 0 (Str.remove "," text)))) ∧
  (Str.digitsValue 0 (Str.remove "," text) < 2 ^ 53 →
   getRatingCountFromElement productElement =
     Some (Number.of_Z (Str.digitsValue 0 (Str.remove "," text)))) ∧
  getRatingCountFromElement
    (mkElement None None None None (Some "9,007,199,254,740,993") [])
    = Some (Number.of_Z 9007199254740992).
Proof.
  intros Htext Hall Hne.
  pose proof (ParseIntFacts.allDigits_remove_comma text Hall) as Hdigits.
  assert (getRatingCountFromElement productElement =
            Some (Double.round (inject_Z (Str.digitsValue 0 (Str.remove "," text)))))
    as Hround.
  { unfold getRatingCountFromElement. rewrite Htext.
    destruct text as [|c text]; [contradiction|]. cbn [Str.ToBoolean negb].
    rewrite (ParseIntFacts.parseInt_allDigits _ Hdigits Hne).
    now rewrite DoubleFacts.round_not_NaN. }
  split; [exact Hround|]. split; [|vm_compute; reflexivity].
  intros Hlt. rewrite Hround, DoubleFacts.round_Z; [reflexivity|].
  pose proof (StrFacts.digitsValue_nonneg 0 _ Hdigits (Z.le_refl 0)). lia.
Qed.

Lemma getRatingCountFromElement_digits_witness :
  getRatingCountFromElement (mkElement None None None None (Some "12,345") [])
    = Some (Number.of_Z 12345).
Proof.
  assert (Str.remove "," "12,345" ≠ EmptyString) as Hne by discriminate.
  exact (proj1 (proj2 (getRatingCountFromElement_digits
                         (mkElement None None None None (Some "12,345") [])
                         "12,345" eq_refl eq_refl Hne))
           eq_refl).
Defined.

(** ** Prices with a decimal point or a comma *)

Module PriceFacts.
Import StrFacts RegExpFacts.

Lemma spanDigits_app digits rest :
  Str.allDigits digits →
  Str.spanDigits rest = (EmptyString, rest) →
  Str.spanDigits (digits +:+ rest) = (digits, rest).
Proof.
  induction digits as [|c digits IH]; intros Hd Hrest; [exact Hrest|].
  apply allDigits_cons in Hd as [Hc Hd].
  rewrite app_cons. cbn [Str.spanDigits]. rewrite Hc, (IH Hd Hrest). reflexivity.
Qed.

(** What [parseFloat] makes of digits, then a text that starts with
    neither a digit nor an exponent, with or without a decimal point
    and digits before it. *)
Lemma parseFloat_digits_point whole fraction :
  Str.allDigits whole → whole ≠ EmptyString → Str.allDigits fraction →
  parseFloat (whole +:+ "." +:+ fraction) =
  decimal false (Str.digitsValue 0 (whole +:+ fraction))
          (- Z.of_nat (String.length fraction)).
Proof.
  intros Hw Hne Hf. destruct whole as [|c whole]; [contradiction|].
  pose proof Hw as Hc. apply allDigits_cons in Hc as [Hc _].
  destruct (digit_facts c Hc) as (Hws & HI & Hsign).
  unfold parseFloat. rewrite app_cons.
  assert (Str.trimStart (String c (whole +:+ "." +:+ fraction)) =
          String c (whole +:+ "." +:+ fraction)) as ->
    by (cbn [Str.trimStart]; now rewrite Hws).
  rewrite Hsign.
  assert (Str.startsWith "Infinity" (String c (whole +:+ "." +:+ fraction)) = false)
    as -> by (cbn [Str.startsWith]; now rewrite HI).
  rewrite <- app_cons, (spanDigits_app _ ("." +:+ fraction) Hw) by reflexivity.
  change ("." +:+ fraction) with (String "." fraction). cbv iota beta.
  rewrite (spanDigits_allDigits _ Hf), app_cons.
  cbn [exponentPart]. rewrite Z.sub_0_l. reflexivity.
Qed.

Lemma parseFloat_digits_comma whole rest :
  Str.allDigits whole → whole ≠ EmptyString →
  parseFloat (whole +:+ "," +:+ rest) =
  Double.round (inject_Z (Str.digitsValue 0 whole)).
Proof.
  intros Hw Hne. destruct whole as [|c whole]; [contradiction|].
  pose proof Hw as Hc. apply allDigits_cons in Hc as [Hc _].
  destruct (digit_facts c Hc) as (Hws & HI & Hsign).
  unfold parseFloat. rewrite app_cons.
  assert (Str.trimStart (String c (whole +:+ "," +:+ rest)) =
          String c (whole +:+ "," +:+ rest)) as ->
    by (cbn [Str.trimStart]; now rewrite Hws).
  rewrite Hsign.
  assert (Str.startsWith "Infinity" (String c (whole +:+ "," +:+ rest)) = false)
    as -> by (cbn [Str.startsWith]; now rewrite HI).
  rewrite <- app_cons, (spanDigits_app _ ("," +:+ rest) Hw) by reflexivity.
  change ("," +:+ rest) with (String "," rest). cbv iota beta.
  rewrite app_empty_r. cbn [exponentPart String.length Ascii.eqb orb].
  change (0 - Z.of_nat 0) with 0. apply DoubleFacts.decimal_integer.
Qed.

End PriceFacts.

(** When the text of the whole part is digits and a decimal point after
    them, as the page writes it, and the text of the fraction is digits,
    [getPriceFromElement] returns the price with the fraction after the
    point: the Number value, the nearest double, for the number that all
    the digits write, divided by ten as many times as the fraction has
    digits. *)
Theorem getPriceFromElement_decimal_point
    (productElement : Element) (whole fraction : string) :
  priceWhole productElement = Some (whole +:+ ".") →
  priceFraction productElement = Some fraction →
  Str.allDigits whole → whole ≠ EmptyString → Str.allDigits fraction →
  getPriceFromElement productElement =
    Some (decimal false (Str.digitsValue 0 (whole +:+ fraction))
                  (- Z.of_nat (String.length fraction))).
Proof.
  intros Hw Hf Hdw Hne Hdf. unfold getPriceFromElement. rewrite Hw, Hf.
  rewrite RegExpFacts.app_assoc.
  rewrite <- (PriceFacts.parseFloat_digits_point whole fraction Hdw Hne Hdf).
  destruct whole; [contradiction | reflexivity].
Qed.

Lemma getPriceFromElement_decimal_point_witness :
  Str.allDigits "12" ∧ "12" ≠ EmptyString ∧ Str.allDigits "99" ∧
  getPriceFromElement (mkElement None (Some "12.") (Some "99") None None [])
    = Some (decimal false 1299 (-2)) ∧
  decimal false 1299 (-2) = Finite (7312719894942843 # 562949953421312).
Proof.
  assert (Str.allDigits "12") as H12 by reflexivity.
  assert (Str.allDigits "99") as H99 by reflexivity.
  assert ("12" ≠ EmptyString) as Hne by discriminate.
  split; [exact H12|]. split; [exact Hne|]. split; [exact H99|].
  split; [|vm_compute; reflexivity].
  exact (getPriceFromElement_decimal_point
           (mkElement None (Some "12.") (Some "99") None None [])
           "12" "99" eq_refl eq_refl H12 Hne H99).
Defined.

(** A comma in the text of the whole part ends the price: what comes
    after the digits before the first comma, the text of the fraction
    included, is not read.  The price is the Number value for the integer
    that these digits write, below 2^53 that integer itself.  So [1,299.]
    and [99] give 1, where the rating count leaves the commas out. *)
Theorem getPriceFromElement_comma
    (productElement : Element) (digits rest fraction : string) :
  priceWhole productElement = Some (digits +:+ "," +:+ rest) →
  priceFraction productElement = Some fraction →
  Str.allDigits digits → digits ≠ EmptyString →
  getPriceFromElement productElement =
    Some (Double.round (inject_Z (Str.digitsValue 0 digits))) ∧
  (Str.digitsValue 0 digits < 2 ^ 53 →
   getPriceFromElement productElement = Some (Number.of_Z (Str.digitsValue 0 digits))).
Proof.
  intros Hw Hf Hd Hne.
  assert (getPriceFromElement productElement =
            Some (Double.round (inject_Z (Str.digitsValue 0 digits)))) as Hround.
  { unfold getPriceFromElement. rewrite Hw, Hf.
    rewrite !RegExpFacts.app_assoc.
    rewrite <- (PriceFacts.parseFloat_digits_comma digits (rest +:+ fraction) Hd Hne).
    destruct digits; [contradiction | reflexivity]. }
  split; [exact Hround|].
  intros Hlt. rewrite Hround, DoubleFacts.round_Z; [reflexivity|].
  pose proof (StrFacts.digitsValue_nonneg 0 _ Hd (Z.le_refl 0)). lia.
Qed.

Lemma getPriceFromElement_comma_witness :
  Str.allDigits "1" ∧ "1" ≠ EmptyString ∧
  getPriceFromElement (mkElement None (Some "1,299.") (Some "99") None None [])
    = Some (Number.of_Z 1).
Proof.
  assert (Str.allDigits "1") as H1 by reflexivity.
  assert ("1" ≠ EmptyString) as Hne by discriminate.
  split; [exact H1|]. split; [exact Hne|].
  exact (proj2 (getPriceFromElement_comma
                  (mkElement None (Some "1,299.") (Some "99") None None [])
                  "1" "299." "99" eq_refl eq_refl H1 Hne)
           eq_refl).
Defined.

(** ** The delivery date of an element *)

Module EarlierFacts.

Lemma le_trans a b c :
  Number.le a b → Number.le b c → Number.isNaN b = false → Number.le a c.
Proof.
  unfold Number.le. intros Hab Hbc Hb. apply not_true_is_false. intros Hca.
  destruct (NumberFacts.trichotomy b a Hb) as [H|[H|H]].
  - destruct a; [destruct c; discriminate Hca | reflexivity..].
  - congruence.
  - rewrite (NumberFacts.strict_eq_lt_r _ _ c H) in Hbc. congruence.
  - rewrite (NumberFacts.lt_trans _ _ _ Hca H) in Hbc. discriminate.
Qed.

Lemma foldl_earlier_elem l a : foldl earlier a l ∈ a :: l.
Proof.
  revert a. induction l as [|x l IH]; intros a; [left|].
  cbn [foldl]. apply elem_of_cons.
  destruct (elem_of_cons l (foldl earlier (earlier a x) l) (earlier a x)) as [[Heq|Hin] _];
    [apply IH | | right; now right].
  rewrite Heq. unfold earlier.
  destruct (Number.lt (getTime a) (getTime x)); [now left | right; left].
Qed.

Lemma foldl_earlier_keeps l a y :
  (∀ d, d ∈ a :: l → Number.isNaN (getTime d) = false) →
  Number.le (getTime a) (getTime y) →
  Number.le (getTime (foldl earlier a l)) (getTime y).
Proof.
  revert a. induction l as [|x l IH]; intros a Hvalid Hy; [exact Hy|].
  cbn [foldl]. apply IH.
  - intros d Hd. apply elem_of_cons in Hd as [->|Hd].
    + unfold earlier. destruct (Number.lt _ _); apply Hvalid; [left | right; left].
    + apply Hvalid. now do 2 right.
  - unfold earlier. destruct (Number.lt (getTime a) (getTime x)) eqn:Hlt; [exact Hy|].
    apply (le_trans _ (getTime a)); [exact Hlt | exact Hy | apply Hvalid; left].
Qed.

Lemma foldl_earlier_best l a y :
  (∀ d, d ∈ a :: l → Number.isNaN (getTime d) = false) →
  y ∈ a :: l → Number.le (getTime (foldl earlier a l)) (getTime y).
Proof.
  revert a. induction l as [|x l IH]; intros a Hvalid Hin.
  - apply list_elem_of_singleton in Hin as ->. apply NumberFacts.lt_irrefl.
  - assert (∀ d, d ∈ earlier a x :: l → Number.isNaN (getTime d) = false) as Hvalid'.
    { intros d Hd. apply elem_of_cons in Hd as [->|Hd].
      - unfold earlier. destruct (Number.lt _ _); apply Hvalid; [left | right; left].
      - apply Hvalid. now do 2 right. }
    cbn [foldl]. apply elem_of_cons in Hin as [->|Hin].
    + apply foldl_earlier_keeps; [exact Hvalid'|].
      unfold earlier. destruct (Number.lt (getTime a) (getTime x)) eqn:Hlt.
      * apply NumberFacts.lt_irrefl.
      * exact Hlt.
    + apply elem_of_cons in Hin as [->|Hin].
      * apply foldl_earlier_keeps; [exact Hvalid'|].
        unfold earlier. destruct (Number.lt (getTime a) (getTime x)) eqn:Hlt.
        -- apply NumberFacts.lt_asym, Hlt.
        -- apply NumberFacts.lt_irrefl.
      * apply IH; [exact Hvalid' | now right].
Qed.

End EarlierFacts.

Lemma getDeliveryDateFromElement_eq fullYear newDate productElement :
  getDeliveryDateFromElement fullYear newDate productElement =
  match omap (parseDeliveryDateString fullYear newDate)
             (filter (λ d, Str.ToBoolean d) (deliveryTexts productElement)) with
  | [] => None
  | date :: rest => Some (foldl earlier date rest)
  end.
Proof. reflexivity. Qed.

Lemma elem_of_parsed fullYear newDate (texts : list string) date :
  date ∈ omap (parseDeliveryDateString fullYear newDate)
              (filter (λ d, Str.ToBoolean d) texts) ↔
  ∃ text, text ∈ texts ∧ parseDeliveryDateString fullYear newDate text = Some date.
Proof.
  rewrite list_elem_of_omap. split.
  - intros (text & Hin & Hparse). apply list_elem_of_filter in Hin as [_ Hin]. eauto.
  - intros (text & Hin & Hparse). exists text. split; [|exact Hparse].
    apply list_elem_of_filter. split; [|exact Hin].
    destruct text; [vm_compute in Hparse; discriminate Hparse | exact I].
Qed.

Lemma getDeliveryDateFromElement_valid fullYear newDate productElement date :
  getDeliveryDateFromElement fullYear newDate productElement = Some date →
  Number.isNaN (getTime date) = false.
Proof.
  rewrite getDeliveryDateFromElement_eq.
  pose proof (elem_of_parsed fullYear newDate (deliveryTexts productElement)) as Hparsed.
  destruct (omap _ _) as [|first rest]; [discriminate|]. intros [= <-].
  destruct (proj1 (Hparsed _) (EarlierFacts.foldl_earlier_elem rest first))
    as (text & _ & Hd).
  exact (parseDeliveryDateString_not_NaN _ _ _ _ Hd).
Qed.

(** [getDeliveryDateFromElement] returns [null] when none of the texts of
    the element is read as a date, and otherwise the date read from one of
    them, a valid date that is after none of the dates read from the
    texts. *)
Theorem getDeliveryDateFromElement_earliest
    (fullYear : Z) (newDate : string → Date) (productElement : Element) :
  match getDeliveryDateFromElement fullYear newDate productElement with
  | None =>
      ∀ text, text ∈ deliveryTexts productElement →
              parseDeliveryDateString fullYear newDate text = None
  | Some date =>
      (∃ text, text ∈ deliveryTexts productElement ∧
               parseDeliveryDateString fullYear newDate text = Some date) ∧
      Number.isNaN (getTime date) = false ∧
      ∀ text d, text ∈ deliveryTexts productElement →
                parseDeliveryDateString fullYear newDate text = Some d →
                Number.le (getTime date) (getTime d)
  end.
Proof.
  rewrite getDeliveryDateFromElement_eq.
  pose proof (elem_of_parsed fullYear newDate (deliveryTexts productElement)) as Hparsed.
  destruct (omap _ _) as [|first rest].
  - intros text Hin.
    destruct (parseDeliveryDateString fullYear newDate text) as [d|] eqn:Hd;
      [|reflexivity].
    assert (d ∈ []) as Hmem by (apply Hparsed; eauto). inversion Hmem.
  - assert (∀ d, d ∈ first :: rest → Number.isNaN (getTime d) = false) as Hvalid.
    { intros d Hd. apply Hparsed in Hd as (text & _ & Hd).
      exact (parseDeliveryDateString_not_NaN _ _ _ _ Hd). }
    pose proof (EarlierFacts.foldl_earlier_elem rest first) as Helem.
    split; [apply Hparsed, Helem|]. split; [apply Hvalid, Helem|].
    intros text d Hin Hd. apply EarlierFacts.foldl_earlier_best; [exact Hvalid|].
    apply Hparsed. eauto.
Qed.

(** ** White space and ranges in the text of a date *)

Module TrimFacts.
Import DeliveryDate StrFacts RegExpFacts DeliveryDateFacts.

Lemma trimStart_white s x : whiteSpace s → Str.trimStart (s +:+ x) = Str.trimStart x.
Proof.
  unfold whiteSpace. induction s as [|c s IH]; [reflexivity|].
  cbn [Str.all]. rewrite andb_true_iff. intros [Hc Hs].
  rewrite app_cons. cbn [Str.trimStart]. rewrite Hc. exact (IH Hs).
Qed.

Lemma trimStart_white_all s : whiteSpace s → Str.trimStart s = EmptyString.
Proof.
  intros Hs. rewrite <- (app_empty_r s). now rewrite trimStart_white.
Qed.

Lemma trimEnd_white s : whiteSpace s → Str.trimEnd s = EmptyString.
Proof.
  unfold whiteSpace. induction s as [|c s IH]; [reflexivity|].
  cbn [Str.all]. rewrite andb_true_iff. intros [Hc Hs].
  cbn [Str.trimEnd]. rewrite (IH Hs), Hc. reflexivity.
Qed.

Lemma trimEnd_app_white x s : whiteSpace s → Str.trimEnd (x +:+ s) = Str.trimEnd x.
Proof.
  intros Hs. induction x as [|c x IH].
  - rewrite app_empty_l. now apply trimEnd_white.
  - rewrite app_cons. cbn [Str.trimEnd]. rewrite IH. reflexivity.
Qed.

Lemma trim_app_white x s : whiteSpace s → Str.trim (x +:+ s) = Str.trim x.
Proof.
  intros Hs. unfold Str.trim. induction x as [|c x IH].
  - rewrite app_empty_l, (trimStart_white_all s Hs). reflexivity.
  - rewrite app_cons. cbn [Str.trimStart].
    destruct (Char.isWhiteSpace c); [exact IH|].
    rewrite <- app_cons. now apply trimEnd_app_white.
Qed.

(** White space at the two ends of a text is taken off. *)
Lemma trim_white before x after :
  whiteSpace before → whiteSpace after → Str.trim (before +:+ x +:+ after) = Str.trim x.
Proof.
  intros Hb Ha. rewrite <- (trim_app_white x after Ha).
  unfold Str.trim. now rewrite trimStart_white.
Qed.

Lemma trimEnd_snoc s c :
  Char.isWhiteSpace c = false →
  Str.trimEnd (s +:+ String c EmptyString) = s +:+ String c EmptyString.
Proof.
  intros Hc. induction s as [|a s IH].
  - rewrite app_empty_l. cbn [Str.trimEnd]. rewrite Hc. reflexivity.
  - rewrite app_cons. cbn [Str.trimEnd]. rewrite IH. destruct s; reflexivity.
Qed.

Lemma upper_not_white c : Char.between "A" "Z" c = true → Char.isWhiteSpace c = false.
Proof.
  destruct c as [[] [] [] [] [] [] [] []]; intros H; try discriminate H; reflexivity.
Qed.

Lemma digit_not_white c : Char.between "0" "9" c = true → Char.isWhiteSpace c = false.
Proof.
  destruct c as [[] [] [] [] [] [] [] []]; intros H; try discriminate H; reflexivity.
Qed.

Lemma trimEnd_day x d : isDay d = true → Str.trimEnd (x +:+ d) = x +:+ d.
Proof.
  intros Hd. apply day_inv in Hd as [(c1 & -> & H1)|(c1 & c2 & -> & H1 & H2)].
  - now apply trimEnd_snoc, digit_not_white.
  - change (String c1 (String c2 EmptyString))
      with (String c1 EmptyString +:+ String c2 EmptyString).
    rewrite <- app_assoc. now apply trimEnd_snoc, digit_not_white.
Qed.

Lemma trimStart_abbreviation w x :
  isAbbreviation w = true → Str.trimStart (w +:+ x) = w +:+ x.
Proof.
  intros Hw. apply abbreviation_inv in Hw as (c1 & c2 & c3 & -> & H1 & _).
  rewrite app_cons. cbn [Str.trimStart]. now rewrite (upper_not_white c1 H1).
Qed.

(** A text of the pattern has no white space at its ends. *)
Lemma trim_dateText w m d range :
  isDate w m d → isRangeEnd range →
  Str.trim (dateText w m d +:+ range) = dateText w m d +:+ range.
Proof.
  intros (Hw & Hm & Hd) Hrange. unfold Str.trim, dateText.
  rewrite app_assoc, (trimStart_abbreviation w _ Hw).
  destruct Hrange as [->|(w' & m' & d' & (Hw' & Hm' & Hd') & ->)].
  - rewrite app_empty_r, <- !app_assoc. now apply trimEnd_day.
  - unfold dateText. rewrite <- !app_assoc. now apply trimEnd_day.
Qed.

(** What is returned for a text that the pattern matches. *)
Lemma parseDeliveryDateString_matched fullYear newDate dateString w m d range :
  Str.trim dateString = dateText w m d +:+ range →
  isDate w m d → isRangeEnd range →
  parseDeliveryDateString fullYear newDate dateString =
    if Number.isNaN (getTime (newDate (m +:+ " " +:+ d +:+ ", " +:+ pretty fullYear)))
    then None
    else Some (newDate (m +:+ " " +:+ d +:+ ", " +:+ pretty fullYear)).
Proof.
  intros Htrim Hdate Hrange. unfold parseDeliveryDateString.
  assert (RegExp.test DeliveryDate.basicPattern (Str.trim dateString) = true) as ->.
  { apply test_spec, basicPattern_lang. exists w, m, d, range. auto. }
  destruct (split_date w m d range Hdate Hrange) as (part & Hpart & Hmonth & Hday).
  cbn [negb]. rewrite Htrim, Hpart, Hmonth, Hday. cbn [default from_option]. unfold id.
  reflexivity.
Qed.

End TrimFacts.

(** White space before and after the text of a date does not change what
    [parseDeliveryDateString] returns for it. *)
Theorem parseDeliveryDateString_white_space
    (fullYear : Z) (newDate : string → Date) (before dateString after : string) :
  whiteSpace before → whiteSpace after →
  parseDeliveryDateString fullYear newDate (before +:+ dateString +:+ after) =
  parseDeliveryDateString fullYear newDate dateString.
Proof.
  intros Hb Ha. unfold parseDeliveryDateString.
  rewrite (TrimFacts.trim_white before dateString after Hb Ha). reflexivity.
Qed.

Lemma parseDeliveryDateString_white_space_witness :
  whiteSpace "  " ∧ whiteSpace " " ∧
  parseDeliveryDateString 2021 (SampleEngine.newDate true) "  Mon, Aug 2 " =
    Some (mkDate (Number.of_Z 1627862400000)).
Proof.
  split; [reflexivity|]. split; [reflexivity|].
  exact (eq_trans
           (parseDeliveryDateString_white_space 2021 (SampleEngine.newDate true)
              "  " "Mon, Aug 2" " " eq_refl eq_refl)
           eq_refl).
Defined.

(** Of a range of two dates, [Weekday, Month Day - Weekday, Month Day],
    [parseDeliveryDateString] reads the first date only: it returns what
    it returns for the first date alone, whatever the second. *)
Theorem parseDeliveryDateString_range
    (fullYear : Z) (newDate : string → Date)
    (weekday month day weekday' month' day' : string) :
  DeliveryDate.isDate weekday month day →
  DeliveryDate.isDate weekday' month' day' →
  parseDeliveryDateString fullYear newDate
    (DeliveryDate.dateText weekday month day +:+ " - " +:+
     DeliveryDate.dateText weekday' month' day') =
  parseDeliveryDateString fullYear newDate (DeliveryDate.dateText weekday month day).
Proof.
  intros Hfirst Hsecond.
  assert (DeliveryDate.isRangeEnd (" - " +:+ DeliveryDate.dateText weekday' month' day'))
    as Hrange by (right; eauto).
  assert (DeliveryDate.isRangeEnd EmptyString) as Hnone by now left.
  rewrite (TrimFacts.parseDeliveryDateString_matched fullYear newDate _
             weekday month day _
             (TrimFacts.trim_dateText _ _ _ _ Hfirst Hrange) Hfirst Hrange).
  symmetry.
  apply (TrimFacts.parseDeliveryDateString_matched fullYear newDate _
           weekday month day EmptyString); [|exact Hfirst | exact Hnone].
  rewrite <- (TrimFacts.trim_dateText _ _ _ _ Hfirst Hnone).
  now rewrite StrFacts.app_empty_r.
Qed.

Lemma parseDeliveryDateString_range_witness :
  DeliveryDate.isDate "Mon" "Aug" "2" ∧ DeliveryDate.isDate "Wed" "Sep" "14" ∧
  parseDeliveryDateString 2021 (SampleEngine.newDate true) "Mon, Aug 2 - Wed, Sep 14" =
  parseDeliveryDateString 2021 (SampleEngine.newDate true) "Mon, Aug 2".
Proof.
  assert (DeliveryDate.isDate "Mon" "Aug" "2") as Hfirst by (repeat split).
  assert (DeliveryDate.isDate "Wed" "Sep" "14") as Hsecond by (repeat split).
  split; [exact Hfirst|]. split; [exact Hsecond|].
  exact (parseDeliveryDateString_range 2021 (SampleEngine.newDate true)
           "Mon" "Aug" "2" "Wed" "Sep" "14" Hfirst Hsecond).
Defined.

(** ** The listings of a page *)

(** The listings that [getProductDetailsFromElements] makes of the product
    elements of a document are as many as the elements; each has an
    address, and its rating, its rating count and its delivery date, when
    it has one, are never [NaN] or an invalid date.  Its price is the one
    number that can be [NaN]. *)
Theorem getProductDetailsFromElements_listings
    (fullYear : Z) (newDate : string → Date) (document : list Element) :
  let productDetails :=
    getProductDetailsFromElements fullYear newDate (getProductElementsFromPage document) in
  length productDetails = length (getProductElementsFromPage document) ∧
  validDates productDetails ∧
  ∀ p, p ∈ productDetails →
       url p ≠ None ∧
       (∀ r, rating p = Some r → Number.isNaN r = false) ∧
       (∀ n, ratingCount p = Some n → Number.isNaN n = false).
Proof.
  intros productDetails. split; [|split].
  - unfold productDetails, getProductDetailsFromElements. apply length_fmap.
  - intros p d Hin Hd.
    apply elem_of_getProductDetailsFromElements in Hin as (element & _ & _ & _ & Hdate & _).
    rewrite Hdate in Hd. exact (getDeliveryDateFromElement_valid _ _ _ _ Hd).
  - intros p Hin.
    apply elem_of_getProductDetailsFromElements in Hin
      as (element & He & Hurl & _ & _ & Hrating & Hcount).
    apply elem_of_getProductElementsFromPage in He as [_ (productId & Hid & Hne)].
    split; [|split].
    + rewrite Hurl. unfold getProductUrlFromElement. rewrite Hid.
      now destruct productId.
    + intros r Hr. rewrite Hrating in Hr.
      exact (getRatingFromElement_not_NaN _ _ Hr).
    + intros n Hn. rewrite Hcount in Hn.
      exact (getRatingCountFromElement_not_NaN _ _ Hn).
Qed.
